(** * vdexExtractor: the VDEX container parser, checksum rewriter and driver loop

    A shallow embedding of [src/vdexExtractor/src/vdex.c] and of the parts of
    [src/vdexExtractor/src/vdexExtractor.c] that drive it.

    Conventions of the embedding.
    - The mapped file is a [list byte]; the C pointer [cursor] is the start of
      that list, and any other pointer into the mapping is its distance from
      [cursor], an unbounded [Z] (LP64: pointers and [size_t] are 64 bits
      wide, so pointer arithmetic on 32-bit operands does not wrap).
    - A [u4] is a [Z] in [0, 2^32); every place where the C code stores a
      wider value into a [u4] is written out with [u4].
    - Only the bytes of the file are modelled. A load or store outside them
      is [None], called a fault below: in the program it lands in the tail
      of the last page of the mapping or in whatever lies behind it, and
      what happens then is outside the model. *)

From Stdlib Require Import ZArith Lia Strings.Byte String.
From stdpp Require Import base option list.

Local Open Scope Z_scope.

(** ** Bytes and fixed-width loads and stores *)

#[global] Instance byte_eq_dec : EqDecision byte := Byte.byte_eq_dec.

Definition u1_of (b : byte) : Z := Z.of_N (Byte.to_N b).

Definition byte_of (z : Z) : byte :=
  match Byte.of_N (Z.to_N (z mod 256)) with
  | Some b => b
  | None => x00
  end.

(** Truncation to 32 bits, as done by a conversion to [u4]. *)
Definition u4 (z : Z) : Z := z mod 2 ^ 32.

Definition load_byte (buf : list byte) (off : Z) : option byte :=
  if decide (0 <= off) then buf !! Z.to_nat off else None.

Definition load_u1 (buf : list byte) (off : Z) : option Z :=
  u1_of <$> load_byte buf off.

(** Little-endian 32-bit load. *)
Definition load_u4 (buf : list byte) (off : Z) : option Z :=
  b0 ← load_u1 buf off;
  b1 ← load_u1 buf (off + 1);
  b2 ← load_u1 buf (off + 2);
  b3 ← load_u1 buf (off + 3);
  Some (b0 + b1 * 2 ^ 8 + b2 * 2 ^ 16 + b3 * 2 ^ 24).

Definition store_byte (buf : list byte) (off : Z) (b : byte) : option (list byte) :=
  if decide (0 <= off < Z.of_nat (length buf))
  then Some (<[Z.to_nat off := b]> buf)
  else None.

(** Little-endian 32-bit store. *)
Definition store_u4 (buf : list byte) (off : Z) (v : Z) : option (list byte) :=
  buf ← store_byte buf off (byte_of v);
  buf ← store_byte buf (off + 1) (byte_of (v / 2 ^ 8));
  buf ← store_byte buf (off + 2) (byte_of (v / 2 ^ 16));
  store_byte buf (off + 3) (byte_of (v / 2 ^ 24)).

(** [memcmp(buf + off, pat, |pat|) == 0]; all [|pat|] bytes are read. *)
Fixpoint memcmp_eq (buf : list byte) (off : Z) (pat : list byte) : option bool :=
  match pat with
  | [] => Some true
  | p :: pat' =>
      b ← load_byte buf off;
      r ← memcmp_eq buf (off + 1) pat';
      Some (bool_decide (b = p) && r)
  end.

(** ** vdex.h: constants and the packed header *)

Definition kVdexMagic : list byte := [x76; x64; x65; x78].

(** Vdex version 006: API-26 Android "O". *)
Definition version_006 : list byte := [x30; x30; x36; x00].
(** Vdex version 010: API-27 Android "O". *)
Definition version_010 : list byte := [x30; x31; x30; x00].

Definition kVdexMagicVersions : list (list byte) :=
  [version_006; version_010].

Inductive VdexBackend := kBackendV6 | kBackendV10 | kBackendMax.

(** [sizeof(vdexHeader)]: 4 + 4 + 4 * 4 bytes, no padding (packed). *)
Definition sizeof_vdexHeader : Z := 24.
(** [sizeof(VdexChecksum)], a [u4]. *)
Definition sizeof_VdexChecksum : Z := 4.

(** Field offsets of the packed [vdexHeader]. *)
Definition off_magic : Z := 0.
Definition off_version : Z := 4.
Definition off_numberOfDexFiles : Z := 8.
Definition off_dexSize : Z := 12.
Definition off_verifierDepsSize : Z := 16.
Definition off_quickeningInfoSize : Z := 20.

Definition hdr_numberOfDexFiles (buf : list byte) : option Z :=
  load_u4 buf off_numberOfDexFiles.
Definition hdr_dexSize (buf : list byte) : option Z :=
  load_u4 buf off_dexSize.
Definition hdr_verifierDepsSize (buf : list byte) : option Z :=
  load_u4 buf off_verifierDepsSize.
Definition hdr_quickeningInfoSize (buf : list byte) : option Z :=
  load_u4 buf off_quickeningInfoSize.

(** ** vdex.c: validation *)

Definition vdex_isMagicValid (cursor : list byte) : option bool :=
  memcmp_eq cursor off_magic kVdexMagic.

(** The loop over [kVdexMagicVersions]; returns at the first match. *)
Fixpoint isVersionValid_loop (cursor : list byte) (vs : list (list byte)) : option bool :=
  match vs with
  | [] => Some false
  | v :: vs' =>
      eq ← memcmp_eq cursor off_version v;
      if eq : bool then Some true else isVersionValid_loop cursor vs'
  end.

Definition vdex_isVersionValid (cursor : list byte) : option bool :=
  isVersionValid_loop cursor kVdexMagicVersions.

(** [a && b] with C's short circuit: the version is read only when the magic
    is valid. *)
Definition vdex_isValidVdex (cursor : list byte) : option bool :=
  m ← vdex_isMagicValid cursor;
  if m : bool then vdex_isVersionValid cursor else Some false.

(** ** vdex.c: section offsets

    Functions returning [const u1 *] yield the pointer's distance from
    [cursor]; functions returning [u4] truncate ([sizeof] has type [size_t],
    so the sum is formed in 64 bits and truncated by the return). The
    [LOGMSG] calls of these functions do not influence their results and are
    left out. *)

Definition vdex_hasDexSection (cursor : list byte) : option bool :=
  d ← hdr_dexSize cursor;
  Some (negb (d =? 0)).

Definition vdex_GetSizeOfChecksumsSection (cursor : list byte) : option Z :=
  n ← hdr_numberOfDexFiles cursor;
  Some (u4 (sizeof_VdexChecksum * n)).

Definition vdex_DexBegin (cursor : list byte) : option Z :=
  c ← vdex_GetSizeOfChecksumsSection cursor;
  Some (sizeof_vdexHeader + c).

Definition vdex_DexBeginOffset (cursor : list byte) : option Z :=
  c ← vdex_GetSizeOfChecksumsSection cursor;
  Some (u4 (sizeof_vdexHeader + c)).

Definition vdex_DexEnd (cursor : list byte) : option Z :=
  b ← vdex_DexBegin cursor;
  d ← hdr_dexSize cursor;
  Some (b + d).

Definition vdex_DexEndOffset (cursor : list byte) : option Z :=
  b ← vdex_DexBeginOffset cursor;
  d ← hdr_dexSize cursor;
  Some (u4 (b + d)).

Definition vdex_GetLocationChecksum (cursor : list byte) (fileIdx : Z) : option Z :=
  load_u4 cursor (sizeof_vdexHeader + sizeof_VdexChecksum * fileIdx).

(** Returns the mapping after the store. *)
Definition vdex_SetLocationChecksum (cursor : list byte) (fileIdx value : Z)
    : option (list byte) :=
  store_u4 cursor (sizeof_vdexHeader + sizeof_VdexChecksum * fileIdx) value.

Definition vdex_GetVerifierDepsData (cursor : list byte) : option Z :=
  b ← vdex_DexBegin cursor;
  d ← hdr_dexSize cursor;
  Some (b + d).

Definition vdex_GetVerifierDepsDataOffset (cursor : list byte) : option Z :=
  b ← vdex_DexBeginOffset cursor;
  d ← hdr_dexSize cursor;
  Some (u4 (b + d)).

Definition vdex_GetVerifierDepsDataSize (cursor : list byte) : option Z :=
  hdr_verifierDepsSize cursor.

Definition vdex_GetQuickeningInfo (cursor : list byte) : option Z :=
  p ← vdex_GetVerifierDepsData cursor;
  v ← hdr_verifierDepsSize cursor;
  Some (p + v).

Definition vdex_GetQuickeningInfoOffset (cursor : list byte) : option Z :=
  o ← vdex_GetVerifierDepsDataOffset cursor;
  v ← hdr_verifierDepsSize cursor;
  Some (u4 (o + v)).

Definition vdex_GetQuickeningInfoSize (cursor : list byte) : option Z :=
  hdr_quickeningInfoSize cursor.

(** ** dex.h (outside the files covered here)

    [vdex.c] reads [pDexHeader->fileSize] and [main] uses
    [sizeof(dexHeader)]; the struct itself is declared in [dex.h]. Its layout
    is taken as a parameter. *)

Class DexLayout := {
  sizeof_dexHeader : N;
  offsetof_fileSize : N;
}.

(** The layout of the DEX format (a 0x70-byte header with [fileSize] after
    the 8-byte magic, the checksum and the 20-byte signature), used for
    concrete runs. *)
Definition dex_035 : DexLayout :=
  {| sizeof_dexHeader := 112; offsetof_fileSize := 32 |}.

Section DexIteration.
Context `{!DexLayout}.

Definition dex_fileSize (cursor : list byte) (dexBuf : Z) : option Z :=
  load_u4 cursor (dexBuf + Z.of_N offsetof_fileSize).

(** [vdex_GetNextDexFileData(cursor, &offset)]: the result pairs the
    returned pointer ([None] for [NULL]) with the value of [*offset] after
    the call. *)
Definition vdex_GetNextDexFileData (cursor : list byte) (offset : Z)
    : option (option Z * Z) :=
  if decide (offset = 0) then
    has ← vdex_hasDexSection cursor;
    if has : bool then
      dexBuf ← vdex_DexBegin cursor;
      c ← vdex_GetSizeOfChecksumsSection cursor;
      let offset := u4 (sizeof_vdexHeader + c) in
      fileSize ← dex_fileSize cursor dexBuf;
      Some (Some dexBuf, u4 (offset + fileSize))
    else
      Some (None, offset)
  else
    fileSize ← dex_fileSize cursor offset;
    let dexBuf := offset in
    let dexBufMax := dexBuf + fileSize in
    dexEnd ← vdex_DexEnd cursor;
    if decide (dexBufMax = dexEnd) then
      Some (Some dexBuf, u4 (offset + fileSize))
    else if decide (dexBufMax <= dexEnd) then
      Some (Some dexBuf, u4 (offset + fileSize))
    else
      Some (None, offset).

(** Modelled from the spec: the iterator of section 4.1 (its callers, the
    v6 and v10 backends, are outside the files covered here). The cursor
    starts at 0; each of at most [k] steps calls
    [vdex_GetNextDexFileData] and yields the slice from the returned
    pointer to the advanced cursor; a [NULL] result ends the sequence.
    The result also carries the final cursor. *)
Fixpoint dexIter (cursor : list byte) (k : nat) (offset : Z)
    : option (list (Z * Z) * Z) :=
  match k with
  | O => Some ([], offset)
  | S k' =>
      r ← vdex_GetNextDexFileData cursor offset;
      match r with
      | (None, offset') => Some ([], offset')
      | (Some dexBuf, offset') =>
          rest ← dexIter cursor k' offset';
          Some ((dexBuf, offset') :: rest.1, rest.2)
      end
  end.

(** Modelled from the spec: a DEX section laid out as section 3 describes
    it. Starting at [start], DEX files of the sizes [sizes] follow one
    another, each declaring its own non-empty length in its [fileSize]
    field. *)
Fixpoint dex_chain (cursor : list byte) (start : Z) (sizes : list Z) : Prop :=
  match sizes with
  | [] => True
  | s :: sizes' =>
      dex_fileSize cursor start = Some s ∧ 0 < s ∧
      dex_chain cursor (start + s) sizes'
  end.

(** Modelled from the spec: a well-formed container (section 3 and
    invariant 1 of section 8). The header is followed by the checksum
    table and by [numberOfDexFiles] DEX files whose sizes add up to
    [dexSize]; the four sections fill the file, whose length fits the
    32-bit offsets of the format. *)
Definition well_formed (cursor : list byte) (sizes : list Z) : Prop :=
  let n := Z.of_nat (length sizes) in
  let d := foldr Z.add 0 sizes in
  0 < n ∧
  hdr_numberOfDexFiles cursor = Some n ∧
  hdr_dexSize cursor = Some d ∧
  dex_chain cursor (sizeof_vdexHeader + sizeof_VdexChecksum * n) sizes ∧
  (∃ v q,
    hdr_verifierDepsSize cursor = Some v ∧
    hdr_quickeningInfoSize cursor = Some q ∧
    Z.of_nat (length cursor) =
      sizeof_vdexHeader + sizeof_VdexChecksum * n + d + v + q) ∧
  Z.of_nat (length cursor) < 2 ^ 32.
End DexIteration.

(** Modelled from the spec: the slices of a DEX section that starts at
    [start] and holds files of the sizes [sizes], each slice beginning where
    the one before it ends. *)
Fixpoint slices_from (start : Z) (sizes : list Z) : list (Z * Z) :=
  match sizes with
  | [] => []
  | s :: sizes' => (start, start + s) :: slices_from (start + s) sizes'
  end.

(** ** Logging (log.h is outside the files covered here)

    A log is the list of messages issued so far, newest last, each with its
    level and its format string. *)

Inductive log_level := l_FATAL | l_ERROR | l_WARN | l_INFO | l_DEBUG.

Definition log_event : Type := log_level * string.

#[global] Instance log_level_eq_dec : EqDecision log_level.
Proof. solve_decision. Defined.

(** ** vdex.c: header dump

    Every value printed by [vdex_dumpHeaderInfo] is read from the mapping;
    the result lists the header numbers and the location checksums printed. *)

Fixpoint dump_checksums (cursor : list byte) (i : Z) (k : nat) : option (list Z) :=
  match k with
  | O => Some []
  | S k' =>
      c ← vdex_GetLocationChecksum cursor i;
      cs ← dump_checksums cursor (i + 1) k';
      Some (c :: cs)
  end.

Definition vdex_dumpHeaderInfo (cursor : list byte) : option (list Z * list Z) :=
  n ← hdr_numberOfDexFiles cursor;
  d ← hdr_dexSize cursor;
  vs ← vdex_GetVerifierDepsDataSize cursor;
  vo ← vdex_GetVerifierDepsDataOffset cursor;
  qs ← vdex_GetQuickeningInfoSize cursor;
  qo ← vdex_GetQuickeningInfoOffset cursor;
  cs ← dump_checksums cursor 0 (Z.to_nat n);
  Some ([n; d; vs; vo; qs; qo], cs).

(** ** vdex.c: the version-specific backends

    The four static function pointers, each either [NULL] ([None]) or bound
    to one of the two backend functions. *)

Inductive initDepsInfoFn := vdex_initDepsInfo_v6 | vdex_initDepsInfo_v10.
Inductive destroyDepsInfoFn := vdex_destroyDepsInfo_v6 | vdex_destroyDepsInfo_v10.
Inductive dumpDepsInfoFn := vdex_dumpDepsInfo_v6 | vdex_dumpDepsInfo_v10.
Inductive processFn := vdex_process_v6 | vdex_process_v10.

Record backendPtrs := {
  initDepsInfoPtr : option initDepsInfoFn;
  destroyDepsInfoPtr : option destroyDepsInfoFn;
  dumpDepsInfoPtr : option dumpDepsInfoFn;
  processPtr : option processFn;
}.

Definition ptrs_unbound : backendPtrs :=
  {| initDepsInfoPtr := None; destroyDepsInfoPtr := None;
     dumpDepsInfoPtr := None; processPtr := None |}.

Definition ptrs_v6 : backendPtrs :=
  {| initDepsInfoPtr := Some vdex_initDepsInfo_v6;
     destroyDepsInfoPtr := Some vdex_destroyDepsInfo_v6;
     dumpDepsInfoPtr := Some vdex_dumpDepsInfo_v6;
     processPtr := Some vdex_process_v6 |}.

Definition ptrs_v10 : backendPtrs :=
  {| initDepsInfoPtr := Some vdex_initDepsInfo_v10;
     destroyDepsInfoPtr := Some vdex_destroyDepsInfo_v10;
     dumpDepsInfoPtr := Some vdex_dumpDepsInfo_v10;
     processPtr := Some vdex_process_v10 |}.

(** [vdex_backendInit]: the pointers after the call and the messages logged. *)
Definition vdex_backendInit (ver : VdexBackend) (ptrs : backendPtrs)
    : backendPtrs * list log_event :=
  match ver with
  | kBackendV6 => (ptrs_v6, [])
  | kBackendV10 => (ptrs_v10, [])
  | kBackendMax => (ptrs, [(l_FATAL, "Invalid Vdex backend version"%string)])
  end.

(** ** common.h (outside the files covered here): the run arguments *)

Record runArgs_t := {
  outputDir : option string;
  fileOverride : bool;
  unquicken : bool;
  enableDisassembler : bool;
  dumpDeps : bool;
  newCrcFile : option string;
}.

(** The backend functions and the output writer live in files outside the
    ones covered here; what they compute is a parameter.
    [backend_initDepsInfo] tells whether the returned pointer is non-[NULL],
    [backend_process] is the [int] returned. *)
Class Externals := {
  backend_initDepsInfo : initDepsInfoFn → list byte → bool;
  backend_process : processFn → string → list byte → runArgs_t → Z;
  outWriter_VdexFile : runArgs_t → string → list byte → bool;
}.

(** ** strtol (C library), base 10

    Modelled from the C standard: leading white space is skipped, an optional
    sign is read, then the longest run of decimal digits; the scan stops at
    the first other byte, and the value is clamped to the range of [long]
    (64 bits). The scan is not limited to the 4 bytes of the version field;
    running off the mapping is a fault. *)

Definition isspace (b : byte) : bool :=
  bool_decide (b ∈ [x20; x09; x0a; x0b; x0c; x0d]).

Definition digit_of (b : byte) : option Z :=
  let v := u1_of b in
  if decide (48 <= v <= 57) then Some (v - 48) else None.

Fixpoint strtol_digits (s : list byte) (acc : Z) : option Z :=
  match s with
  | [] => None
  | b :: s' =>
      match digit_of b with
      | Some d => strtol_digits s' (10 * acc + d)
      | None => Some acc
      end
  end.

Definition strtol_sign (s : list byte) : option Z :=
  match s with
  | [] => None
  | b :: s' =>
      if decide (b = x2d) then Z.opp <$> strtol_digits s' 0
      else if decide (b = x2b) then strtol_digits s' 0
      else strtol_digits s 0
  end.

Fixpoint strtol_space (s : list byte) : option Z :=
  match s with
  | [] => None
  | b :: s' => if isspace b then strtol_space s' else strtol_sign s
  end.

Definition LONG_MAX : Z := 2 ^ 63 - 1.
Definition LONG_MIN : Z := - 2 ^ 63.

Definition strtol10 (s : list byte) : option Z :=
  v ← strtol_space s;
  Some (Z.max LONG_MIN (Z.min LONG_MAX v)).

Section Driver.
Context `{!DexLayout} `{!Externals}.

Local Open Scope string_scope.

(** ** vdex.c: calls through the backend pointers

    A call through a [NULL] pointer is a fault. The timer of
    [vdex_process] and its debug message are left out. *)

Definition vdex_process (VdexFileName : string) (cursor : list byte)
    (pRunArgs : runArgs_t) (ptrs : backendPtrs) : option Z :=
  f ← processPtr ptrs;
  Some (backend_process f VdexFileName cursor pRunArgs).

Definition vdex_initDepsInfo (vdexFileBuf : list byte) (ptrs : backendPtrs)
    : option bool :=
  f ← initDepsInfoPtr ptrs;
  Some (backend_initDepsInfo f vdexFileBuf).

Definition vdex_dumpDepsInfo (ptrs : backendPtrs) : option unit :=
  _ ← dumpDepsInfoPtr ptrs; Some ().

Definition vdex_destroyDepsInfo (ptrs : backendPtrs) : option unit :=
  _ ← destroyDepsInfoPtr ptrs; Some ().

(** ** vdex.c: vdex_updateChecksums *)

Record update_result := {
  upd_ret : bool;                     (* the value returned *)
  upd_buf : option (list byte);       (* the mapping when it is released *)
  upd_written : option (list byte);   (* the buffer handed to the writer *)
  upd_log : list log_event;
}.

(** The loop [for (u4 i = 0; i < numberOfDexFiles; ++i)], with [k]
    iterations left. *)
Fixpoint updateChecksums_loop (buf : list byte) (checksums : list Z)
    (i : Z) (k : nat) : option (list byte) :=
  match k with
  | O => Some buf
  | S k' =>
      c ← checksums !! Z.to_nat i;
      buf' ← vdex_SetLocationChecksum buf i c;
      updateChecksums_loop buf' checksums (i + 1) k'
  end.

(** [mapped] is what [utils_mapFileToRead] returns for the file ([None]
    for [NULL]); [nCsums] is an [int]. The result is [None] where the loop
    would store past the bytes of the file. *)
Definition vdex_updateChecksums (inVdexFileName : string)
    (mapped : option (list byte)) (nCsums : Z) (checksums : list Z)
    (pRunArgs : runArgs_t) : option update_result :=
  match mapped with
  | None =>
      Some {| upd_ret := false; upd_buf := None; upd_written := None;
              upd_log := [(l_ERROR, "'%s' open & map failed")] |}
  | Some buf =>
      valid ← vdex_isValidVdex buf;
      if negb valid then
        Some {| upd_ret := false; upd_buf := Some buf; upd_written := None;
                upd_log := [(l_WARN, "'%s' is an invalid Vdex file")] |}
      else
        n ← hdr_numberOfDexFiles buf;
        if decide (u4 nCsums ≠ n) then
          Some {| upd_ret := false; upd_buf := Some buf; upd_written := None;
                  upd_log := [(l_ERROR,
                    "%d checksums loaded from file, although Vdex has %u Dex entries")] |}
        else
          buf' ← updateChecksums_loop buf checksums 0 (Z.to_nat n);
          if negb (outWriter_VdexFile pRunArgs inVdexFileName buf') then
            Some {| upd_ret := false; upd_buf := Some buf';
                    upd_written := Some buf';
                    upd_log := [(l_ERROR, "Failed to write updated Vdex file")] |}
          else
            Some {| upd_ret := true; upd_buf := Some buf';
                    upd_written := Some buf'; upd_log := [] |}
  end.

(** ** vdexExtractor.c: the state threaded through [main] *)

Record main_state := {
  processedVdexCnt : Z;               (* size_t *)
  processedDexCnt : Z;                (* size_t *)
  ptrs : backendPtrs;                 (* the static pointers of vdex.c *)
  disStatus : bool;                   (* set by log_setDisStatus *)
  log : list log_event;
}.

Definition main_state_init : main_state :=
  {| processedVdexCnt := 0; processedDexCnt := 0; ptrs := ptrs_unbound;
     disStatus := false; log := [] |}.

Definition LOGMSG (ll : log_level) (msg : string) (st : main_state) : main_state :=
  {| processedVdexCnt := processedVdexCnt st;
     processedDexCnt := processedDexCnt st;
     ptrs := ptrs st; disStatus := disStatus st;
     log := (log st ++ [(ll, msg)])%list |}.

Definition LOGMSGS (evs : list log_event) (st : main_state) : main_state :=
  {| processedVdexCnt := processedVdexCnt st;
     processedDexCnt := processedDexCnt st;
     ptrs := ptrs st; disStatus := disStatus st;
     log := (log st ++ evs)%list |}.

Definition log_setDisStatus (b : bool) (st : main_state) : main_state :=
  {| processedVdexCnt := processedVdexCnt st;
     processedDexCnt := processedDexCnt st;
     ptrs := ptrs st; disStatus := b; log := log st |}.

Definition set_ptrs (p : backendPtrs) (st : main_state) : main_state :=
  {| processedVdexCnt := processedVdexCnt st;
     processedDexCnt := processedDexCnt st;
     ptrs := p; disStatus := disStatus st; log := log st |}.

(** [processedDexCnt += ret; processedVdexCnt++] on [size_t] counters. *)
Definition count_processed (ret : Z) (st : main_state) : main_state :=
  {| processedVdexCnt := (processedVdexCnt st + 1) mod 2 ^ 64;
     processedDexCnt := (processedDexCnt st + ret) mod 2 ^ 64;
     ptrs := ptrs st; disStatus := disStatus st; log := log st |}.

(** ** vdexExtractor.c: selectVdexBackend *)

Definition selectVdexBackend (cursor : list byte) (st : main_state)
    : option (bool * main_state) :=
  v ← strtol10 (drop (Z.to_nat off_version) cursor);
  if decide (v = 6) then
    let '(p, evs) := vdex_backendInit kBackendV6 (ptrs st) in
    Some (true, LOGMSGS evs (set_ptrs p st))
  else if decide (v = 10) then
    let '(p, evs) := vdex_backendInit kBackendV10 (ptrs st) in
    Some (true, LOGMSGS evs (set_ptrs p st))
  else
    Some (false, LOGMSG l_ERROR "Invalid Vdex version" st).

(** ** vdexExtractor.c: the body of the per-file loop of [main]

    [None] is a fault; otherwise the state with which the loop goes on to
    the next file, whether by [continue] or by reaching the end of the
    body. *)

Definition main_dumpDeps (buf : list byte) (st : main_state) : option main_state :=
  let st := log_setDisStatus true st in
  pDepsData ← vdex_initDepsInfo buf (ptrs st);
  st ← (if negb pDepsData then
          Some (LOGMSG l_WARN "Empty verified dependency data" st)
        else
          _ ← vdex_dumpDepsInfo (ptrs st);
          _ ← vdex_destroyDepsInfo (ptrs st);
          Some st);
  Some (log_setDisStatus false st).

(** From the call of [selectVdexBackend] to the end of the body. *)
Definition main_file_backend (pRunArgs : runArgs_t) (file : string)
    (buf : list byte) (st : main_state) : option main_state :=
  r ← selectVdexBackend buf st;
  let '(ok, st) := r in
  if negb ok then
    Some (LOGMSG l_WARN "Failed to initialize Vdex backend - skipping '%s'" st)
  else
    st ← (if dumpDeps pRunArgs then main_dumpDeps buf st else Some st);
    let st := if enableDisassembler pRunArgs
              then log_setDisStatus true st else st in
    ret ← vdex_process file buf pRunArgs (ptrs st);
    if decide (ret = -1) then
      Some (LOGMSG l_ERROR "Failed to process Dex files - skipping '%s'" st)
    else
      Some (count_processed ret st).

(** [mapped] is what [utils_mapFileToRead] returns for the file. *)
Definition main_file (pRunArgs : runArgs_t) (file : string)
    (mapped : option (list byte)) (st : main_state) : option main_state :=
  let st := LOGMSG l_DEBUG "Processing '%s'" st in
  match mapped with
  | None => Some (LOGMSG l_ERROR "Open & map failed - skipping '%s'" st)
  | Some buf =>
      if decide (Z.of_nat (length buf) <
                 sizeof_vdexHeader + Z.of_N sizeof_dexHeader) then
        Some (LOGMSG l_WARN "Invalid input file - skipping '%s'" st)
      else
        valid ← vdex_isValidVdex buf;
        if negb valid then
          Some (LOGMSG l_WARN "Invalid Vdex header - skipping '%s'" st)
        else
          _ ← vdex_dumpHeaderInfo buf;
          main_file_backend pRunArgs file buf st
  end.

Fixpoint main_loop (pRunArgs : runArgs_t)
    (files : list (string * option (list byte))) (st : main_state)
    : option main_state :=
  match files with
  | [] => Some st
  | (file, mapped) :: files' =>
      st' ← main_file pRunArgs file mapped st;
      main_loop pRunArgs files' st'
  end.

Definition EXIT_SUCCESS : Z := 0.
Definition EXIT_FAILURE : Z := 1.

(** [main] from the declaration of [mainRet] to [exitWrapper(mainRet)], in
    a run without [--new-crc]: the exit status and the final state. *)
Definition main_extract (pRunArgs : runArgs_t)
    (files : list (string * option (list byte))) : option (Z * main_state) :=
  let st := LOGMSG l_INFO "Processing %zu file(s) from %s" main_state_init in
  st ← main_loop pRunArgs files st;
  let st := LOGMSG l_INFO "%u out of %u Vdex files have been processed" st in
  let st := LOGMSG l_INFO "%u Dex files have been extracted in total" st in
  let st := LOGMSG l_INFO "Extracted Dex files are available in '%s'" st in
  Some (EXIT_SUCCESS, st).

(** The same stretch of [main] in a run with [--new-crc]. [csums] is what
    [utils_processFileWithCsums] returns ([None] for [NULL]) and [nSums]
    the count it stores. *)
Definition main_newCrc (pRunArgs : runArgs_t)
    (files : list (string * option (list byte)))
    (csums : option (list Z)) (nSums : Z) : option (Z * list log_event) :=
  match files with
  | [(file, mapped)] =>
      match csums with
      | Some checksums =>
          if decide (nSums < 1) then
            Some (EXIT_FAILURE,
                  [(l_ERROR, "Failed to extract new location checksums from '%s'")])
          else
            r ← vdex_updateChecksums file mapped nSums checksums pRunArgs;
            if negb (upd_ret r) then
              Some (EXIT_FAILURE,
                    (upd_log r ++
                     [(l_ERROR, "Failed to update location checksums")])%list)
            else
              Some (EXIT_SUCCESS,
                    (upd_log r ++
                     [(l_INFO, "%d location checksums have been updated");
                      (l_INFO, "Update Vdex file is available in '%s'")])%list)
      | None =>
          Some (EXIT_FAILURE,
                [(l_ERROR, "Failed to extract new location checksums from '%s'")])
      end
  | _ =>
      Some (EXIT_FAILURE,
            [(l_ERROR, "Exactly one input Vdex file is expected when updating location checksums")])
  end.
End Driver.

(** ** What a run does with each file, in terms of the inputs *)

(** The messages with which the loop of [main] gives up on a file. *)
Definition skip_messages : list string :=
  [ "Open & map failed - skipping '%s'";
    "Invalid input file - skipping '%s'";
    "Invalid Vdex header - skipping '%s'";
    "Failed to initialize Vdex backend - skipping '%s'";
    "Failed to process Dex files - skipping '%s'" ]%string.

Definition is_skip (e : log_event) : bool :=
  match e.1 with
  | l_ERROR | l_WARN => existsb (String.eqb e.2) skip_messages
  | _ => false
  end.

(** The number of files given up on, as recorded in the log. *)
Definition skipped (evs : list log_event) : nat :=
  length (List.filter is_skip evs).

Section RunOutcome.
Context `{!DexLayout} `{!Externals}.

(** Validation succeeds for the file: it could be mapped, it is long
    enough for [main]'s size test, and its header is valid. *)
Definition file_validates (mapped : option (list byte)) : bool :=
  match mapped with
  | None => false
  | Some buf =>
      bool_decide (sizeof_vdexHeader + Z.of_N sizeof_dexHeader
                   <= Z.of_nat (length buf)) &&
      bool_decide (vdex_isValidVdex buf = Some true)
  end.

Definition validation_succeeds
    (files : list (string * option (list byte))) : bool :=
  existsb (λ f, file_validates f.2) files.

(** The backend that [selectVdexBackend] binds for a validated file. *)
Definition selected_process (buf : list byte) : processFn :=
  if bool_decide (take 4 (drop 4 buf) = version_006)
  then vdex_process_v6 else vdex_process_v10.

(** The file fails: it cannot be mapped, is too short, has an invalid
    header, or its processing returns -1. *)
Definition file_fails (pRunArgs : runArgs_t) (file : string)
    (mapped : option (list byte)) : bool :=
  match mapped with
  | None => true
  | Some buf =>
      negb (file_validates mapped) ||
      bool_decide
        (backend_process (selected_process buf) file buf pRunArgs = -1)
  end.

Definition failed (pRunArgs : runArgs_t)
    (files : list (string * option (list byte))) : nat :=
  length (List.filter (λ f, file_fails pRunArgs f.1 f.2) files).

(** Everything [vdex_dumpHeaderInfo] prints for a validated file lies
    inside the mapping. *)
Definition file_safe (mapped : option (list byte)) : bool :=
  match mapped with
  | None => true
  | Some buf =>
      negb (file_validates mapped) ||
      bool_decide (is_Some (vdex_dumpHeaderInfo buf))
  end.

Definition files_safe (files : list (string * option (list byte))) : bool :=
  forallb (λ f, file_safe f.2) files.

(** What the loop body may do to the state [st], giving [st']: on a file
    that fails, log that the file is given up on and leave the counters
    alone; on any other file, count it, with the [ret] DEX files its
    processing reports. *)
Definition outcome (pRunArgs : runArgs_t) (file : string)
    (mapped : option (list byte)) (st st' : main_state) : Prop :=
  if file_fails pRunArgs file mapped then
    processedVdexCnt st' = processedVdexCnt st ∧
    processedDexCnt st' = processedDexCnt st ∧
    skipped (log st') = S (skipped (log st))
  else
    ∃ ret, ret ≠ -1 ∧
      processedVdexCnt st' = (processedVdexCnt st + 1) mod 2 ^ 64 ∧
      processedDexCnt st' = (processedDexCnt st + ret) mod 2 ^ 64 ∧
      skipped (log st') = skipped (log st).
End RunOutcome.

(** ** Concrete containers for the examples below *)

(** The four bytes of a [u4], least significant first. *)
Definition le32 (v : Z) : list byte :=
  [byte_of v; byte_of (v / 2 ^ 8); byte_of (v / 2 ^ 16); byte_of (v / 2 ^ 24)].

(** A 24-byte header with the given version and the four [u4] fields. *)
Definition mk_header (version : list byte) (n d v q : Z) : list byte :=
  kVdexMagic ++ version ++ le32 n ++ le32 d ++ le32 v ++ le32 q.

(** A DEX file of [len] bytes, all zero except for the [fileSize] field at
    offset 32, which holds [fileSize]. *)
Definition mk_dex (fileSize : Z) (len : nat) : list byte :=
  replicate 32 x00 ++ le32 fileSize ++ replicate (len - 36) x00.

(** A container that starts with the magic and version 006. *)
Definition vdex006_prefix : list byte := kVdexMagic ++ version_006.
Definition vdex010_prefix : list byte := kVdexMagic ++ version_010.

(** Backends that extract one DEX file per container, and a writer that
    succeeds. *)
Definition externals_ok : Externals :=
  {| backend_initDepsInfo := λ _ _, true;
     backend_process := λ _ _ _ _, 1;
     outWriter_VdexFile := λ _ _ _, true |}.

Definition runArgs_default : runArgs_t :=
  {| outputDir := None; fileOverride := false; unquicken := true;
     enableDisassembler := false; dumpDeps := false; newCrcFile := None |}.

(** A header whose checksum table alone would span 4 GiB. *)
Definition huge_table_header : list byte :=
  mk_header version_010 1073741824 0 0 0.

(** One DEX file of 112 bytes in a container of version 006. *)
Definition one_dex_vdex : list byte :=
  mk_header version_006 1 112 0 0 ++ le32 10 ++ mk_dex 112 112.

(** As [one_dex_vdex], but the DEX header declares 4096 bytes where the
    header of the container announces a DEX section of 112. *)
Definition overrun_vdex : list byte :=
  mk_header version_006 1 112 0 0 ++ le32 10 ++ mk_dex 4096 112.

(** A container of version 010 without a DEX section. *)
Definition no_dex_vdex : list byte :=
  mk_header version_010 0 0 0 0.

(** A header that announces a DEX section of 2^32 - 1 bytes, in front of a
    DEX header that declares 2^32 - 16 bytes. *)
Definition wrap_vdex : list byte :=
  mk_header version_006 1 4294967295 0 0 ++ le32 10 ++ mk_dex 4294967280 112.

(** Two DEX files of 112 and 120 bytes, followed by 8 bytes of verifier
    dependencies and 4 bytes of quickening info. *)
Definition two_dex_vdex : list byte :=
  mk_header version_010 2 232 8 4 ++ le32 10 ++ le32 11 ++
  mk_dex 112 112 ++ mk_dex 120 120 ++ replicate 12 x00.

(** The checksums 0x11111111 and 22 as they are laid out in the table. *)
Definition s4_checksum_bytes : list byte :=
  [x11; x11; x11; x11; x16; x00; x00; x00].

(** A file of 136 zero bytes: long enough for [main], but without the
    magic. *)
Definition zero_file : list byte := replicate 136 x00.

(** A run over three files: one that cannot be mapped, one without the
    magic, and a container with two DEX files. *)
Definition three_files : list (string * option (list byte)) :=
  [ ("missing.vdex", None);
    ("zero.vdex", Some zero_file);
    ("base.vdex", Some two_dex_vdex) ]%string.

(** ** Expected results, used to state what the code computes *)

(** The mapping with the first [n] entries of its checksum table replaced by
    the little-endian bytes of the first [n] values of [checksums]. *)
Definition checksums_rewritten (buf : list byte) (n : nat) (checksums : list Z)
    : list byte :=
  take 24 buf ++ concat (le32 <$> take n checksums) ++ drop (24 + 4 * n) buf.

(** A header that announces two DEX files in a DEX section of 112 bytes,
    followed by two DEX files of 112 bytes each. *)
Definition truncated_vdex : list byte :=
  mk_header version_010 2 112 0 0 ++ le32 10 ++ le32 11 ++
  mk_dex 112 112 ++ mk_dex 112 112.

(** A container whose second DEX header declares a size of 0. *)
Definition stalled_vdex : list byte :=
  mk_header version_010 2 232 0 0 ++ le32 10 ++ le32 11 ++
  mk_dex 112 112 ++ mk_dex 0 120.

Section RunTotals.
Context `{!DexLayout} `{!Externals}.

(** The number of DEX files that the backend reports for a file that does
    not fail, and 0 for a file that fails. *)
Definition file_dex_count (pRunArgs : runArgs_t) (file : string)
    (mapped : option (list byte)) : Z :=
  match mapped with
  | None => 0
  | Some buf =>
      if file_fails pRunArgs file mapped then 0
      else backend_process (selected_process buf) file buf pRunArgs
  end.

Definition dex_total (pRunArgs : runArgs_t)
    (files : list (string * option (list byte))) : Z :=
  foldr (λ f acc, file_dex_count pRunArgs f.1 f.2 + acc) 0 files.
End RunTotals.

(** ** vdexExtractor.c: the option loop of [main]

    [getopt_long] and [atoi] belong to the C library. The loop is modelled
    on the sequence of pairs (return value, [optarg]) that successive calls
    of [getopt_long] yield; [atoi] is a parameter. [usage(true)] leaves the
    program through [exitWrapper(EXIT_SUCCESS)]. *)

Class Libc := {
  atoi : string → Z;
}.

Record main_opts := {
  opt_inputFile : option string;      (* pFiles.inputFile *)
  opt_runArgs : runArgs_t;            (* pRunArgs *)
  opt_logLevel : Z;                   (* logLevel *)
  opt_logFile : option string;        (* logFile *)
}.

(** [l_INFO], the default level: 3, as the usage text states. *)
Definition l_INFO_level : Z := 3.

(** The locals of [main] as they are initialised. *)
Definition main_opts_init : main_opts :=
  {| opt_inputFile := None;
     opt_runArgs :=
       {| outputDir := None; fileOverride := false; unquicken := true;
          enableDisassembler := false; dumpDeps := false;
          newCrcFile := None |};
     opt_logLevel := l_INFO_level;
     opt_logFile := None |}.

Definition with_runArgs (f : runArgs_t → runArgs_t) (o : main_opts) : main_opts :=
  {| opt_inputFile := opt_inputFile o; opt_runArgs := f (opt_runArgs o);
     opt_logLevel := opt_logLevel o; opt_logFile := opt_logFile o |}.

(** The option codes: the characters of the short options and the values
    given in [longopts]. *)
Definition opt_i : Z := 105.
Definition opt_o : Z := 111.
Definition opt_f : Z := 102.
Definition opt_no_unquicken : Z := 257.
Definition opt_dis : Z := 258.
Definition opt_deps : Z := 259.
Definition opt_new_crc : Z := 260.
Definition opt_v : Z := 118.
Definition opt_l : Z := 108.
Definition opt_unknown : Z := 63.
Definition opt_h : Z := 104.

Section Options.
Context `{!Libc}.

(** The body of the [switch]: the locals after the case, or the status with
    which the program exits. *)
Definition main_option (c : Z) (optarg : string) (o : main_opts)
    : main_opts + Z :=
  if decide (c = opt_i) then
    inl {| opt_inputFile := Some optarg; opt_runArgs := opt_runArgs o;
           opt_logLevel := opt_logLevel o; opt_logFile := opt_logFile o |}
  else if decide (c = opt_o) then
    inl (with_runArgs (λ a,
      {| outputDir := Some optarg; fileOverride := fileOverride a;
         unquicken := unquicken a; enableDisassembler := enableDisassembler a;
         dumpDeps := dumpDeps a; newCrcFile := newCrcFile a |}) o)
  else if decide (c = opt_f) then
    inl (with_runArgs (λ a,
      {| outputDir := outputDir a; fileOverride := true;
         unquicken := unquicken a; enableDisassembler := enableDisassembler a;
         dumpDeps := dumpDeps a; newCrcFile := newCrcFile a |}) o)
  else if decide (c = opt_no_unquicken) then
    inl (with_runArgs (λ a,
      {| outputDir := outputDir a; fileOverride := fileOverride a;
         unquicken := false; enableDisassembler := enableDisassembler a;
         dumpDeps := dumpDeps a; newCrcFile := newCrcFile a |}) o)
  else if decide (c = opt_dis) then
    inl (with_runArgs (λ a,
      {| outputDir := outputDir a; fileOverride := fileOverride a;
         unquicken := unquicken a; enableDisassembler := true;
         dumpDeps := dumpDeps a; newCrcFile := newCrcFile a |}) o)
  else if decide (c = opt_deps) then
    inl (with_runArgs (λ a,
      {| outputDir := outputDir a; fileOverride := fileOverride a;
         unquicken := unquicken a; enableDisassembler := enableDisassembler a;
         dumpDeps := true; newCrcFile := newCrcFile a |}) o)
  else if decide (c = opt_new_crc) then
    inl (with_runArgs (λ a,
      {| outputDir := outputDir a; fileOverride := fileOverride a;
         unquicken := unquicken a; enableDisassembler := enableDisassembler a;
         dumpDeps := dumpDeps a; newCrcFile := Some optarg |}) o)
  else if decide (c = opt_v) then
    inl {| opt_inputFile := opt_inputFile o; opt_runArgs := opt_runArgs o;
           opt_logLevel := atoi optarg; opt_logFile := opt_logFile o |}
  else if decide (c = opt_l) then
    inl {| opt_inputFile := opt_inputFile o; opt_runArgs := opt_runArgs o;
           opt_logLevel := opt_logLevel o; opt_logFile := Some optarg |}
  else if decide (c = opt_unknown ∨ c = opt_h) then
    inr EXIT_SUCCESS
  else
    inr EXIT_FAILURE.

(** The [while] loop over the results of [getopt_long]; it ends at the first
    result -1, or when the results are used up. *)
Fixpoint main_options (results : list (Z * string)) (o : main_opts)
    : main_opts + Z :=
  match results with
  | [] => inl o
  | (c, optarg) :: results' =>
      if decide (c = -1) then inl o
      else
        match main_option c optarg o with
        | inl o' => main_options results' o'
        | inr status => inr status
        end
  end.
End Options.

(** The codes of the options that take the loop to its next round. *)
Definition continuing_codes : list Z :=
  [opt_i; opt_o; opt_f; opt_no_unquicken; opt_dis; opt_deps; opt_new_crc;
   opt_v; opt_l].

(** An [atoi] for the examples: every argument reads as 4. *)
Definition libc_example : Libc := {| atoi := λ _, 4 |}.

(** Membership in a list that is written out. *)
Ltac solve_elem_of_list :=
  repeat first [ apply list_elem_of_here | apply list_elem_of_further ].

(* ===================================================================== *)
(** * Properties *)
(* ===================================================================== *)

(** ** Loads *)

Lemma load_byte_lookup (buf : list byte) (off : Z) :
  0 <= off → load_byte buf off = buf !! Z.to_nat off.
Proof. intros Hoff. unfold load_byte. by rewrite decide_True. Qed.

Lemma load_byte_is_Some (buf : list byte) (off : Z) :
  0 <= off < Z.of_nat (length buf) → is_Some (load_byte buf off).
Proof.
  intros [H0 H1]. rewrite load_byte_lookup by done.
  apply lookup_lt_is_Some. lia.
Qed.

Lemma load_byte_Some_lt (buf : list byte) (off : Z) (b : byte) :
  load_byte buf off = Some b → 0 <= off < Z.of_nat (length buf).
Proof.
  unfold load_byte. case_decide; [|done].
  intros Hl%lookup_lt_Some. lia.
Qed.

Lemma u1_of_range (b : byte) : 0 <= u1_of b < 256.
Proof.
  unfold u1_of. pose proof (Byte.to_N_bounded b). lia.
Qed.

Lemma load_u4_is_Some (buf : list byte) (off : Z) :
  0 <= off → off + 4 <= Z.of_nat (length buf) → is_Some (load_u4 buf off).
Proof.
  intros H0 H1. unfold load_u4, load_u1.
  destruct (load_byte_is_Some buf off) as [b0 ->]; [lia|].
  destruct (load_byte_is_Some buf (off + 1)) as [b1 ->]; [lia|].
  destruct (load_byte_is_Some buf (off + 2)) as [b2 ->]; [lia|].
  destruct (load_byte_is_Some buf (off + 3)) as [b3 ->]; [lia|].
  simpl. eauto.
Qed.

Lemma load_u4_Some_inv (buf : list byte) (off v : Z) :
  load_u4 buf off = Some v →
  0 <= off ∧ off + 4 <= Z.of_nat (length buf) ∧ 0 <= v < 2 ^ 32.
Proof.
  unfold load_u4, load_u1. intros H.
  destruct (load_byte buf off) as [b0|] eqn:E0; [|done].
  destruct (load_byte buf (off + 1)) as [b1|] eqn:E1; [|done].
  destruct (load_byte buf (off + 2)) as [b2|] eqn:E2; [|done].
  destruct (load_byte buf (off + 3)) as [b3|] eqn:E3; [|done].
  simpl in H. injection H as <-.
  apply load_byte_Some_lt in E0, E3.
  pose proof (u1_of_range b0). pose proof (u1_of_range b1).
  pose proof (u1_of_range b2). pose proof (u1_of_range b3).
  lia.
Qed.

(** A load sees only the bytes it covers. *)
Lemma load_u4_ext (b1 b2 : list byte) (off : Z) :
  (∀ i, off <= i < off + 4 → load_byte b1 i = load_byte b2 i) →
  load_u4 b1 off = load_u4 b2 off.
Proof.
  intros H. unfold load_u4, load_u1.
  rewrite (H off), (H (off + 1)), (H (off + 2)), (H (off + 3)) by lia.
  done.
Qed.

(** ** memcmp *)

Lemma memcmp_eq_ext (b1 b2 : list byte) (pat : list byte) (off : Z) :
  (∀ i, off <= i < off + Z.of_nat (length pat) →
        load_byte b1 i = load_byte b2 i) →
  memcmp_eq b1 off pat = memcmp_eq b2 off pat.
Proof.
  revert off. induction pat as [|p pat IH]; intros off H; [done|].
  simpl in *. rewrite (H off) by lia.
  rewrite (IH (off + 1)); [done|].
  intros i Hi. apply H. lia.
Qed.

Lemma memcmp_eq_true (buf pat : list byte) (off : Z) :
  0 <= off →
  memcmp_eq buf off pat = Some true ↔
  take (length pat) (drop (Z.to_nat off) buf) = pat.
Proof.
  revert off. induction pat as [|p pat IH]; intros off Hoff.
  { simpl. by rewrite take_0. }
  simpl. rewrite load_byte_lookup by done.
  destruct (buf !! Z.to_nat off) as [b|] eqn:Eb; simpl.
  - rewrite (drop_S _ _ _ Eb). simpl.
    replace (S (Z.to_nat off)) with (Z.to_nat (off + 1)) by lia.
    specialize (IH (off + 1) ltac:(lia)).
    destruct (memcmp_eq buf (off + 1) pat) as [r|]; simpl.
    + split.
      * intros [= H]. apply andb_true_iff in H as [Hb Hr].
        apply bool_decide_eq_true in Hb. subst b r.
        f_equal. by apply IH.
      * intros [= -> Ht]. apply IH in Ht. injection Ht as ->.
        by rewrite bool_decide_eq_true_2.
    + split; [done|]. intros [= _ Ht]. apply IH in Ht. done.
  - apply lookup_ge_None in Eb. rewrite drop_ge by lia. done.
Qed.

(** [memcmp] faults only when it runs off the mapping. *)
Lemma memcmp_eq_is_Some (buf pat : list byte) (off : Z) :
  0 <= off → off + Z.of_nat (length pat) <= Z.of_nat (length buf) →
  is_Some (memcmp_eq buf off pat).
Proof.
  revert off. induction pat as [|p pat IH]; intros off H0 H1; simpl in *.
  { eauto. }
  destruct (load_byte_is_Some buf off) as [b ->]; [lia|].
  destruct (IH (off + 1)) as [r ->]; [lia..|].
  simpl. eauto.
Qed.

(** ** Validation *)

Lemma vdex_isMagicValid_true (buf : list byte) :
  vdex_isMagicValid buf = Some true ↔ take 4 buf = kVdexMagic.
Proof.
  unfold vdex_isMagicValid, off_magic.
  rewrite memcmp_eq_true by done. simpl. by rewrite drop_0.
Qed.

Lemma vdex_isVersionValid_true (buf : list byte) :
  vdex_isVersionValid buf = Some true ↔
  take 4 (drop 4 buf) = version_006 ∨ take 4 (drop 4 buf) = version_010.
Proof.
  unfold vdex_isVersionValid, kVdexMagicVersions.
  cbn [isVersionValid_loop]. change off_version with 4.
  pose proof (memcmp_eq_true buf version_006 4 ltac:(done)) as H6.
  pose proof (memcmp_eq_true buf version_010 4 ltac:(done)) as H10.
  change (Z.to_nat 4) with 4%nat in H6, H10. simpl length in H6, H10.
  destruct (memcmp_eq buf 4 version_006) as [[]|] eqn:E6;
    cbn [mbind option_bind].
  - split; [intros _; left; by apply H6 | done].
  - destruct (memcmp_eq buf 4 version_010) as [[]|];
      cbn [mbind option_bind].
    + split; [intros _; right; by apply H10 | done].
    + split; [done|]. intros [H|H]; [apply H6 in H | apply H10 in H]; done.
    + split; [done|]. intros [H|H]; [apply H6 in H | apply H10 in H]; done.
  - split; [done|]. intros [H|H]; [apply H6 in H; done|].
    (* the first comparison faulted, so the mapping is too short for the
       second pattern to be there *)
    apply (f_equal length) in H. rewrite length_take, length_drop in H.
    change (length version_010) with 4%nat in H.
    destruct (memcmp_eq_is_Some buf version_006 4) as [r Hr];
      [done | change (Z.of_nat (length version_006)) with 4; lia
      | congruence].
Qed.

Lemma vdex_isValidVdex_true (buf : list byte) :
  vdex_isValidVdex buf = Some true ↔
  take 4 buf = kVdexMagic ∧
  (take 4 (drop 4 buf) = version_006 ∨ take 4 (drop 4 buf) = version_010).
Proof.
  rewrite <- vdex_isMagicValid_true, <- vdex_isVersionValid_true.
  unfold vdex_isValidVdex.
  destruct (vdex_isMagicValid buf) as [[]|]; simpl; intuition congruence.
Qed.

Lemma vdex_isVersionValid_is_Some (buf : list byte) :
  (8 <= length buf)%nat → is_Some (vdex_isVersionValid buf).
Proof.
  intros Hlen. unfold vdex_isVersionValid, kVdexMagicVersions.
  cbn [isVersionValid_loop]. change off_version with 4.
  destruct (memcmp_eq_is_Some buf version_006 4) as [[] ->];
    [done | change (Z.of_nat (length version_006)) with 4; lia
    | cbn [mbind option_bind]; eauto |].
  cbn [mbind option_bind].
  destruct (memcmp_eq_is_Some buf version_010 4) as [[] ->];
    [done | change (Z.of_nat (length version_010)) with 4; lia
    | cbn [mbind option_bind]; eauto..].
Qed.

Lemma vdex_isValidVdex_is_Some (buf : list byte) :
  (8 <= length buf)%nat → is_Some (vdex_isValidVdex buf).
Proof.
  intros Hlen. unfold vdex_isValidVdex, vdex_isMagicValid.
  destruct (memcmp_eq_is_Some buf kVdexMagic off_magic) as [[] ->];
    [done | change (Z.of_nat (length kVdexMagic)) with 4; unfold off_magic; lia
    | | ]; cbn [mbind option_bind].
  - by apply vdex_isVersionValid_is_Some.
  - eauto.
Qed.

Lemma take_8_split (buf m v : list byte) :
  length m = 4%nat → length v = 4%nat →
  take 8 buf = m ++ v ↔ take 4 buf = m ∧ take 4 (drop 4 buf) = v.
Proof.
  intros Hm Hv. change (take 8 buf) with (take (4 + 4) buf).
  rewrite <- (take_take_drop buf 4 4). split.
  - intros H. apply app_inj_1 in H; [done|].
    apply (f_equal length) in H.
    rewrite !length_app, !length_take, length_drop in H.
    rewrite length_take. lia.
  - by intros [-> ->].
Qed.

Lemma vdex_isValidVdex_prefix (buf : list byte) :
  vdex_isValidVdex buf = Some true ↔
  take 8 buf = vdex006_prefix ∨ take 8 buf = vdex010_prefix.
Proof.
  rewrite vdex_isValidVdex_true. unfold vdex006_prefix, vdex010_prefix.
  rewrite !take_8_split by done. tauto.
Qed.

Lemma vdex_isValidVdex_false (buf : list byte) :
  (8 <= length buf)%nat →
  take 8 buf ≠ vdex006_prefix → take 8 buf ≠ vdex010_prefix →
  vdex_isValidVdex buf = Some false.
Proof.
  intros Hlen H6 H10.
  destruct (vdex_isValidVdex_is_Some buf Hlen) as [[] Hv]; [|done].
  apply vdex_isValidVdex_prefix in Hv as [?|?]; done.
Qed.

(** C2: [vdex_isValidVdex] returns true exactly when the first four bytes
    are the literal "vdex" and the next four are "006\0" or "010\0". Any other
    readable 8-byte prefix makes it return false, and then neither the loop
    of [main] nor [vdex_updateChecksums] does any further work on the file:
    [main] only logs and keeps its state, [vdex_updateChecksums] returns
    false with the mapping untouched and nothing written. *)
Theorem C2_isValidVdex_magic_and_version
    `{!DexLayout} `{!Externals} (buf : list byte) :
  (vdex_isValidVdex buf = Some true ↔
     take 8 buf = vdex006_prefix ∨ take 8 buf = vdex010_prefix) ∧
  ((8 <= length buf)%nat →
   take 8 buf ≠ vdex006_prefix → take 8 buf ≠ vdex010_prefix →
   vdex_isValidVdex buf = Some false ∧
   (∀ pRunArgs file st,
      sizeof_vdexHeader + Z.of_N sizeof_dexHeader <= Z.of_nat (length buf) →
      main_file pRunArgs file (Some buf) st =
        Some (LOGMSG l_WARN "Invalid Vdex header - skipping '%s'"
                (LOGMSG l_DEBUG "Processing '%s'" st))) ∧
   (∀ file nCsums checksums pRunArgs,
      vdex_updateChecksums file (Some buf) nCsums checksums pRunArgs =
        Some {| upd_ret := false; upd_buf := Some buf; upd_written := None;
                upd_log := [(l_WARN, "'%s' is an invalid Vdex file"%string)] |})).
Proof.
  split; [apply vdex_isValidVdex_prefix|].
  intros Hlen H6 H10.
  pose proof (vdex_isValidVdex_false buf Hlen H6 H10) as Hf.
  split; [done|]. split.
  - intros pRunArgs file st Hsz. unfold main_file.
    rewrite decide_False by lia. by rewrite Hf.
  - intros file nCsums checksums pRunArgs. unfold vdex_updateChecksums.
    by rewrite Hf.
Qed.

Lemma C2_isValidVdex_magic_and_version_witness :
  vdex_isValidVdex (mk_header version_006 1 112 0 0) = Some true ∧
  vdex_isValidVdex (mk_header [x30; x30; x37; x00] 1 112 0 0) = Some false.
Proof.
  split.
  - apply (@C2_isValidVdex_magic_and_version dex_035 externals_ok).
    left. reflexivity.
  - apply (@C2_isValidVdex_magic_and_version dex_035 externals_ok
             (mk_header [x30; x30; x37; x00] 1 112 0 0)).
    + vm_compute. lia.
    + vm_compute. discriminate.
    + vm_compute. discriminate.
Defined.

(** C9: [vdex_isValidVdex], [vdex_isMagicValid] and [vdex_isVersionValid]
    depend only on bytes 0 to 7 of the buffer: on two buffers that agree
    there, each returns the same value. *)
Theorem C9_validation_reads_only_first_8_bytes (b1 b2 : list byte) :
  (∀ i : nat, (i < 8)%nat → b1 !! i = b2 !! i) →
  vdex_isValidVdex b1 = vdex_isValidVdex b2 ∧
  vdex_isMagicValid b1 = vdex_isMagicValid b2 ∧
  vdex_isVersionValid b1 = vdex_isVersionValid b2.
Proof.
  intros Hagree.
  assert (Hload : ∀ i, 0 <= i < 8 → load_byte b1 i = load_byte b2 i).
  { intros i Hi. rewrite !load_byte_lookup by lia. apply Hagree. lia. }
  assert (Hm : vdex_isMagicValid b1 = vdex_isMagicValid b2).
  { apply memcmp_eq_ext. intros i Hi. apply Hload.
    unfold off_magic, kVdexMagic in Hi. simpl in Hi. lia. }
  assert (Hv : vdex_isVersionValid b1 = vdex_isVersionValid b2).
  { unfold vdex_isVersionValid, kVdexMagicVersions.
    cbn [isVersionValid_loop].
    rewrite (memcmp_eq_ext b1 b2 version_006 off_version),
            (memcmp_eq_ext b1 b2 version_010 off_version);
      [done|intros i Hi; apply Hload; unfold off_version in Hi;
            simpl in Hi; lia ..]. }
  split; [|done]. unfold vdex_isValidVdex. by rewrite Hm, Hv.
Qed.

Lemma C9_validation_reads_only_first_8_bytes_witness :
  vdex_isValidVdex (vdex006_prefix ++ [x01]) =
    vdex_isValidVdex (vdex006_prefix ++ [x02; x03]) ∧
  vdex_isMagicValid (vdex006_prefix ++ [x01]) =
    vdex_isMagicValid (vdex006_prefix ++ [x02; x03]) ∧
  vdex_isVersionValid (vdex006_prefix ++ [x01]) =
    vdex_isVersionValid (vdex006_prefix ++ [x02; x03]).
Proof.
  apply (C9_validation_reads_only_first_8_bytes
           (vdex006_prefix ++ [x01]) (vdex006_prefix ++ [x02; x03])).
  intros i Hi. do 8 (destruct i as [|i]; [reflexivity|]). lia.
Defined.

(** ** Section offsets *)

Lemma u4_small (z : Z) : 0 <= z < 2 ^ 32 → u4 z = z.
Proof. intros H. unfold u4. by apply Z.mod_small. Qed.

Lemma u4_range (z : Z) : 0 <= u4 z < 2 ^ 32.
Proof. unfold u4. apply Z.mod_pos_bound. lia. Qed.

Lemma u4_add_u4_r (a b : Z) : u4 (a + u4 b) = u4 (a + b).
Proof. unfold u4. apply Zplus_mod_idemp_r. Qed.

Lemma u4_add_u4_l (a b : Z) : u4 (u4 a + b) = u4 (a + b).
Proof. unfold u4. apply Zplus_mod_idemp_l. Qed.

(** C3 (as amended): for every readable header the three section offsets are
    formed in 32-bit arithmetic: [vdex_DexBeginOffset] is
    [24 + 4 * numberOfDexFiles] modulo 2^32, [vdex_GetVerifierDepsDataOffset]
    adds [dexSize] to it modulo 2^32, and [vdex_GetQuickeningInfoOffset] adds
    [verifierDepsSize] to that modulo 2^32. Whenever
    [24 + 4 * numberOfDexFiles + dexSize + verifierDepsSize] is below 2^32
    they are the plain sums, so that the checksums, the DEX files, the
    verifier dependencies and the quickening info follow the header in this
    order. *)
Theorem C3_section_offsets (buf : list byte) (n d v : Z) :
  hdr_numberOfDexFiles buf = Some n →
  hdr_dexSize buf = Some d →
  hdr_verifierDepsSize buf = Some v →
  ∃ b o q,
    vdex_DexBeginOffset buf = Some b ∧
    vdex_GetVerifierDepsDataOffset buf = Some o ∧
    vdex_GetQuickeningInfoOffset buf = Some q ∧
    b = u4 (24 + 4 * n) ∧ o = u4 (b + d) ∧ q = u4 (o + v) ∧
    (24 + 4 * n + d + v < 2 ^ 32 →
     b = 24 + 4 * n ∧ o = b + d ∧ q = o + v).
Proof.
  intros Hn Hd Hv.
  unfold vdex_GetQuickeningInfoOffset, vdex_GetVerifierDepsDataOffset,
    vdex_DexBeginOffset, vdex_GetSizeOfChecksumsSection.
  rewrite Hn, Hd, Hv. cbn [mbind option_bind].
  unfold sizeof_vdexHeader, sizeof_VdexChecksum. rewrite u4_add_u4_r.
  eexists _, _, _. repeat split; try reflexivity.
  all: apply load_u4_Some_inv in Hn as (_ & _ & Hn);
    apply load_u4_Some_inv in Hd as (_ & _ & Hd);
    apply load_u4_Some_inv in Hv as (_ & _ & Hv);
    rewrite ?(u4_small (24 + 4 * n)) by lia;
    rewrite ?(u4_small (24 + 4 * n + d)) by lia;
    rewrite ?(u4_small (24 + 4 * n + d + v)) by lia; reflexivity.
Qed.

Lemma C3_section_offsets_witness :
  ∃ b o q,
    vdex_DexBeginOffset one_dex_vdex = Some b ∧
    vdex_GetVerifierDepsDataOffset one_dex_vdex = Some o ∧
    vdex_GetQuickeningInfoOffset one_dex_vdex = Some q ∧
    b = u4 (24 + 4 * 1) ∧ o = u4 (b + 112) ∧ q = u4 (o + 0) ∧
    (24 + 4 * 1 + 112 + 0 < 2 ^ 32 →
     b = 24 + 4 * 1 ∧ o = b + 112 ∧ q = o + 0).
Proof.
  apply (C3_section_offsets one_dex_vdex 1 112 0); reflexivity.
Defined.

(** C3 as stated fails: with [numberOfDexFiles = 2^30] the checksum table
    size [4 * 2^30] is truncated to 0 and [vdex_DexBeginOffset] is 24, not
    [24 + 4 * 2^30]. *)
Lemma C3_plain_sum_counterexample :
  hdr_numberOfDexFiles huge_table_header = Some 1073741824 ∧
  vdex_DexBeginOffset huge_table_header = Some 24 ∧
  vdex_DexBeginOffset huge_table_header ≠ Some (24 + 4 * 1073741824).
Proof. repeat split; vm_compute; congruence. Qed.

(** ** The DEX iterator, call by call *)

Section NextDexFileData.
Context `{!DexLayout}.

(** First call: with a DEX section present the slice at [vdex_DexBegin] is
    returned whatever its declared size. *)
Lemma vdex_GetNextDexFileData_first (buf : list byte) (n d fs : Z) :
  hdr_numberOfDexFiles buf = Some n →
  hdr_dexSize buf = Some d → d ≠ 0 →
  dex_fileSize buf (24 + u4 (4 * n)) = Some fs →
  vdex_GetNextDexFileData buf 0 =
    Some (Some (24 + u4 (4 * n)), u4 (24 + 4 * n + fs)).
Proof.
  intros Hn Hd Hd0 Hfs. unfold vdex_GetNextDexFileData.
  rewrite decide_True by done.
  unfold vdex_hasDexSection, vdex_DexBegin, vdex_GetSizeOfChecksumsSection.
  rewrite Hd, Hn. cbn [mbind option_bind].
  destruct (Z.eqb_spec d 0) as [|_]; [done|]. cbn [negb].
  unfold sizeof_vdexHeader, sizeof_VdexChecksum.
  rewrite Hfs. cbn [mbind option_bind].
  rewrite u4_add_u4_l.
  replace (24 + u4 (4 * n) + fs) with (24 + fs + u4 (4 * n)) by lia.
  rewrite u4_add_u4_r. do 3 f_equal. lia.
Qed.

(** Later calls: the slice is returned when it ends at or before
    [vdex_DexEnd] ... *)
Lemma vdex_GetNextDexFileData_later_fits (buf : list byte) (offset fs e : Z) :
  offset ≠ 0 →
  dex_fileSize buf offset = Some fs →
  vdex_DexEnd buf = Some e →
  offset + fs <= e →
  vdex_GetNextDexFileData buf offset = Some (Some offset, u4 (offset + fs)).
Proof.
  intros Ho Hfs He Hfit. unfold vdex_GetNextDexFileData.
  rewrite decide_False by done. rewrite Hfs, He. cbn [mbind option_bind].
  case_decide; [done|]. by rewrite decide_True.
Qed.

(** ... and refused, with the cursor left where it was, when it would run
    past [vdex_DexEnd]. *)
Lemma vdex_GetNextDexFileData_later_overrun (buf : list byte) (offset fs e : Z) :
  offset ≠ 0 →
  dex_fileSize buf offset = Some fs →
  vdex_DexEnd buf = Some e →
  e < offset + fs →
  vdex_GetNextDexFileData buf offset = Some (None, offset).
Proof.
  intros Ho Hfs He Hover. unfold vdex_GetNextDexFileData.
  rewrite decide_False by done. rewrite Hfs, He. cbn [mbind option_bind].
  rewrite decide_False by lia. by rewrite decide_False by lia.
Qed.

(** C10: when the header's [dexSize] is 0, the first call (cursor 0)
    returns [NULL] and leaves the cursor at 0, so iterating over the
    container yields no slice however many steps are taken. *)
Theorem C10_no_dex_section_yields_nothing (buf : list byte) :
  hdr_dexSize buf = Some 0 →
  vdex_GetNextDexFileData buf 0 = Some (None, 0) ∧
  ∀ k, dexIter buf k 0 = Some ([], 0).
Proof.
  intros Hd.
  assert (Hcall : vdex_GetNextDexFileData buf 0 = Some (None, 0)).
  { unfold vdex_GetNextDexFileData, vdex_hasDexSection.
    rewrite decide_True by done. by rewrite Hd. }
  split; [done|].
  intros [|k]; [done|]. cbn [dexIter]. by rewrite Hcall.
Qed.
End NextDexFileData.

Lemma C10_no_dex_section_yields_nothing_witness :
  @vdex_GetNextDexFileData dex_035 no_dex_vdex 0 = Some (None, 0) ∧
  ∀ k, @dexIter dex_035 no_dex_vdex k 0 = Some ([], 0).
Proof.
  apply (@C10_no_dex_section_yields_nothing dex_035 no_dex_vdex).
  reflexivity.
Defined.

(** C1, at the first call: in [overrun_vdex] the DEX section ends at offset
    140 and the DEX header at offset 28 declares 4096 bytes, so the slice
    would end at 4124; the first call still returns the slice (pointer 28)
    and moves the cursor to 4124. A later call on a slice that runs past
    [vdex_DexEnd] is refused ([vdex_GetNextDexFileData_later_overrun]). *)
Theorem C1_first_call_returns_overrunning_slice :
  vdex_DexEnd overrun_vdex = Some 140 ∧
  @dex_fileSize dex_035 overrun_vdex 28 = Some 4096 ∧
  @vdex_GetNextDexFileData dex_035 overrun_vdex 0 = Some (Some 28, 4124).
Proof. repeat split; vm_compute; reflexivity. Qed.

(** ** The DEX iterator over a whole container *)

Lemma slices_from_last (start : Z) (sizes : list Z) :
  sizes ≠ [] →
  snd <$> last (slices_from start sizes) = Some (start + foldr Z.add 0 sizes).
Proof.
  revert start. induction sizes as [|s sizes IH]; intros start Hne; [done|].
  destruct sizes as [|s' sizes].
  - simpl. do 2 f_equal. lia.
  - specialize (IH (start + s) ltac:(done)).
    change (slices_from start (s :: s' :: sizes))
      with ((start, start + s) :: slices_from (start + s) (s' :: sizes)).
    cbn [slices_from] in *. rewrite last_cons_cons.
    rewrite IH. f_equal. simpl. lia.
Qed.

Section DexIterationProperties.
Context `{!DexLayout}.

Lemma dex_chain_sum_nonneg (buf : list byte) (start : Z) (sizes : list Z) :
  dex_chain buf start sizes → 0 <= foldr Z.add 0 sizes.
Proof.
  revert start. induction sizes as [|s sizes IH]; intros start; simpl; [lia|].
  intros (_ & Hs & Hrest). apply IH in Hrest. lia.
Qed.

(** After the first call the iterator walks a chain of DEX files slice by
    slice, as long as the chain stays inside the DEX section. *)
Lemma dexIter_chain (buf : list byte) (e : Z) :
  vdex_DexEnd buf = Some e → e < 2 ^ 32 →
  ∀ sizes start,
    0 < start →
    dex_chain buf start sizes →
    start + foldr Z.add 0 sizes <= e →
    dexIter buf (length sizes) start =
      Some (slices_from start sizes, start + foldr Z.add 0 sizes).
Proof.
  intros He Hlt. induction sizes as [|s sizes IH]; intros start Hpos Hch Hfit.
  { simpl. do 2 f_equal. lia. }
  destruct Hch as (Hfs & Hs & Hrest).
  pose proof (dex_chain_sum_nonneg _ _ _ Hrest) as Hsum.
  cbn [foldr] in Hfit.
  cbn [length dexIter slices_from foldr].
  rewrite (vdex_GetNextDexFileData_later_fits buf start s e)
    by (done || lia).
  cbn [mbind option_bind]. rewrite u4_small by lia.
  rewrite (IH (start + s)) by (done || lia).
  cbn [mbind option_bind fst snd]. do 2 f_equal. lia.
Qed.

Lemma well_formed_dexIter (buf : list byte) (sizes : list Z) :
  well_formed buf sizes →
  let begin := 24 + 4 * Z.of_nat (length sizes) in
  let o := begin + foldr Z.add 0 sizes in
  vdex_GetVerifierDepsDataOffset buf = Some o ∧
  dexIter buf (length sizes) 0 = Some (slices_from begin sizes, o).
Proof.
  intros (Hn0 & Hn & Hd & Hch & (v & q & Hv & Hq & Hlen) & Hsmall).
  unfold sizeof_vdexHeader, sizeof_VdexChecksum in *.
  apply load_u4_Some_inv in Hv as Hv'. destruct Hv' as (_ & _ & Hv').
  apply load_u4_Some_inv in Hq as Hq'. destruct Hq' as (_ & _ & Hq').
  pose proof (dex_chain_sum_nonneg _ _ _ Hch) as Hsum.
  set (n := Z.of_nat (length sizes)) in *.
  set (d := foldr Z.add 0 sizes) in *.
  assert (Hend : vdex_DexEnd buf = Some (24 + 4 * n + d)).
  { unfold vdex_DexEnd, vdex_DexBegin, vdex_GetSizeOfChecksumsSection.
    rewrite Hn, Hd. cbn [mbind option_bind].
    unfold sizeof_vdexHeader, sizeof_VdexChecksum.
    by rewrite (u4_small (4 * n)) by lia. }
  split.
  - unfold vdex_GetVerifierDepsDataOffset, vdex_DexBeginOffset,
      vdex_GetSizeOfChecksumsSection.
    rewrite Hn, Hd. cbn [mbind option_bind].
    unfold sizeof_vdexHeader, sizeof_VdexChecksum.
    rewrite (u4_small (4 * n)), (u4_small (24 + 4 * n)) by lia.
    by rewrite u4_small by lia.
  - destruct sizes as [|s sizes]; [simpl in n; lia|].
    destruct Hch as (Hfs & Hs & Hrest).
    pose proof (dex_chain_sum_nonneg _ _ _ Hrest) as Hsum'.
    assert (Hd' : d = s + foldr Z.add 0 sizes) by done.
    cbn [length dexIter slices_from].
    fold n.
    rewrite (vdex_GetNextDexFileData_first buf n d s);
      [|done|done|lia|by rewrite (u4_small (4 * n)) by lia].
    cbn [mbind option_bind].
    rewrite (u4_small (4 * n)), (u4_small (24 + 4 * n + s)) by lia.
    rewrite (dexIter_chain buf (24 + 4 * n + d) Hend ltac:(lia)
               sizes (24 + 4 * n + s)) by (done || lia).
    cbn [mbind option_bind fst snd]. do 2 f_equal. lia.
Qed.
End DexIterationProperties.

Section SliceAdjacency.
Context `{!DexLayout}.

Lemma vdex_GetNextDexFileData_first_inv (buf : list byte) (p o' : Z) :
  vdex_GetNextDexFileData buf 0 = Some (Some p, o') →
  ∃ fs, 24 <= p ∧ dex_fileSize buf p = Some fs ∧ o' = u4 (p + fs).
Proof.
  unfold vdex_GetNextDexFileData. rewrite decide_True by done.
  destruct (vdex_hasDexSection buf) as [[]|]; cbn [mbind option_bind];
    [|done..].
  unfold vdex_DexBegin.
  destruct (vdex_GetSizeOfChecksumsSection buf) as [c|] eqn:Hc;
    cbn [mbind option_bind]; [|done].
  destruct (dex_fileSize buf (sizeof_vdexHeader + c)) as [fs|] eqn:Hfs;
    cbn [mbind option_bind]; [|done].
  intros [= <- <-]. exists fs.
  unfold vdex_GetSizeOfChecksumsSection in Hc.
  destruct (hdr_numberOfDexFiles buf); [|done]. injection Hc as <-.
  pose proof (u4_range (sizeof_VdexChecksum * z)).
  unfold sizeof_vdexHeader in *.
  split; [lia|]. split; [done|]. by rewrite u4_add_u4_l.
Qed.

Lemma vdex_GetNextDexFileData_first_begin (buf : list byte) (p o' : Z) :
  vdex_GetNextDexFileData buf 0 = Some (Some p, o') →
  vdex_DexBegin buf = Some p.
Proof.
  unfold vdex_GetNextDexFileData. rewrite decide_True by done.
  destruct (vdex_hasDexSection buf) as [[]|]; cbn [mbind option_bind];
    [|done..].
  destruct (vdex_DexBegin buf) as [b|]; cbn [mbind option_bind]; [|done].
  destruct (vdex_GetSizeOfChecksumsSection buf) as [c|];
    cbn [mbind option_bind]; [|done].
  destruct (dex_fileSize buf b) as [fs|]; cbn [mbind option_bind]; [|done].
  by intros [= <- _].
Qed.

Lemma vdex_GetNextDexFileData_later_inv (buf : list byte) (offset p o' : Z) :
  offset ≠ 0 →
  vdex_GetNextDexFileData buf offset = Some (Some p, o') →
  p = offset ∧ ∃ fs, dex_fileSize buf p = Some fs ∧ o' = u4 (p + fs).
Proof.
  intros Ho. unfold vdex_GetNextDexFileData. rewrite decide_False by done.
  destruct (dex_fileSize buf offset) as [fs|] eqn:Hfs;
    cbn [mbind option_bind]; [|done].
  destruct (vdex_DexEnd buf) as [e|]; cbn [mbind option_bind]; [|done].
  repeat case_decide; intros [= <- <-]; eauto.
Qed.

(** C4 (as amended): a successful call yields the slice that starts at the
    cursor (at [vdex_DexBegin] on the first call) and sets the cursor to
    the slice's start plus its DEX header's [fileSize], reduced modulo
    2^32. Whenever that sum is below 2^32 the cursor is exactly the end of
    the slice and the slice yielded by the next call begins there. For a
    well-formed container the [numberOfDexFiles] slices follow one another
    from offset [24 + 4 * numberOfDexFiles] and the last one ends exactly
    at [vdex_GetVerifierDepsDataOffset]. *)
Theorem C4_slices_adjacent (buf : list byte) :
  (∀ offset p offset',
     0 <= offset < 2 ^ 32 →
     vdex_GetNextDexFileData buf offset = Some (Some p, offset') →
     ∃ fs,
       dex_fileSize buf p = Some fs ∧
       (offset = 0 → vdex_DexBegin buf = Some p) ∧
       (offset ≠ 0 → p = offset) ∧
       offset' = u4 (p + fs) ∧
       (p + fs < 2 ^ 32 →
        offset' = p + fs ∧
        ∀ p2 o2,
          vdex_GetNextDexFileData buf offset' = Some (Some p2, o2) →
          p2 = p + fs)) ∧
  (∀ sizes,
     well_formed buf sizes →
     let begin := 24 + 4 * Z.of_nat (length sizes) in
     ∃ o,
       vdex_GetVerifierDepsDataOffset buf = Some o ∧
       dexIter buf (length sizes) 0 = Some (slices_from begin sizes, o) ∧
       snd <$> last (slices_from begin sizes) = Some o).
Proof.
  split.
  - intros offset p offset' Hrange Hcall.
    assert (∃ fs, 0 < p ∧ dex_fileSize buf p = Some fs ∧
                  (offset = 0 → vdex_DexBegin buf = Some p) ∧
                  (offset ≠ 0 → p = offset) ∧ offset' = u4 (p + fs))
      as (fs & Hp & Hfs & Hbegin & Hstart & Ho').
    { destruct (decide (offset = 0)) as [->|Hne].
      - pose proof (vdex_GetNextDexFileData_first_begin _ _ _ Hcall).
        apply vdex_GetNextDexFileData_first_inv in Hcall
          as (fs & ? & ? & ?).
        exists fs. repeat split; [lia|done|done|done|done].
      - apply vdex_GetNextDexFileData_later_inv in Hcall
          as (-> & fs & ? & ?); [|done].
        exists fs. repeat split; [lia|done|done|done]. }
    exists fs. repeat split; try done.
    + rewrite Ho'. apply u4_small.
      apply load_u4_Some_inv in Hfs as (_ & _ & ?). lia.
    + intros p2 o2 Hnext.
      assert (offset' = p + fs) as ->.
      { rewrite Ho'. apply u4_small.
        apply load_u4_Some_inv in Hfs as (_ & _ & ?). lia. }
      apply vdex_GetNextDexFileData_later_inv in Hnext as [-> _]; [done|].
      apply load_u4_Some_inv in Hfs as (_ & _ & ?). lia.
  - intros sizes Hwf begin.
    destruct (well_formed_dexIter buf sizes Hwf) as [Ho Hiter].
    eexists. split; [exact Ho|]. split; [exact Hiter|].
    apply slices_from_last.
    destruct Hwf as (Hn0 & _). intros ->. simpl in Hn0. lia.
Qed.
End SliceAdjacency.

Lemma two_dex_vdex_well_formed : @well_formed dex_035 two_dex_vdex [112; 120].
Proof.
  unfold well_formed. cbn [length foldr].
  repeat split; try (vm_compute; reflexivity).
  exists 8, 4. repeat split; vm_compute; reflexivity.
Defined.

Lemma C4_slices_adjacent_witness :
  (∃ fs,
     @dex_fileSize dex_035 two_dex_vdex 32 = Some fs ∧
     (0 = 0 → vdex_DexBegin two_dex_vdex = Some 32) ∧
     (0 ≠ 0 → 32 = 0) ∧
     144 = u4 (32 + fs) ∧
     (32 + fs < 2 ^ 32 →
      144 = 32 + fs ∧
      ∀ p2 o2,
        @vdex_GetNextDexFileData dex_035 two_dex_vdex 144 = Some (Some p2, o2) →
        p2 = 32 + fs)) ∧
  (∃ o,
     vdex_GetVerifierDepsDataOffset two_dex_vdex = Some o ∧
     @dexIter dex_035 two_dex_vdex 2 0 = Some ([(32, 144); (144, 264)], o) ∧
     snd <$> last [(32, 144); (144, 264)] = Some o).
Proof.
  destruct (@C4_slices_adjacent dex_035 two_dex_vdex) as [Hcall Hwf].
  split.
  - apply (Hcall 0 32 144); [lia | reflexivity].
  - apply (Hwf [112; 120] two_dex_vdex_well_formed).
Defined.

(** C4 as stated fails: in [wrap_vdex] the first call yields the slice at
    28, whose DEX header declares 2^32 - 16 bytes, and leaves the cursor at
    12; the next call yields a slice that begins at 12 and not at the end of
    the first one. *)
Lemma C4_wrapped_cursor_counterexample :
  @vdex_GetNextDexFileData dex_035 wrap_vdex 0 = Some (Some 28, 12) ∧
  @dex_fileSize dex_035 wrap_vdex 28 = Some 4294967280 ∧
  @vdex_GetNextDexFileData dex_035 wrap_vdex 12 = Some (Some 12, 12) ∧
  12 ≠ 28 + 4294967280.
Proof. repeat split; vm_compute; congruence. Qed.

(** ** Backend selection *)

Lemma take_4_inv (l : list byte) (a b c d : byte) :
  take 4 l = [a; b; c; d] → l = a :: b :: c :: d :: drop 4 l.
Proof.
  destruct l as [|a' [|b' [|c' [|d' l]]]]; simpl; try done.
  by intros [= -> -> -> ->].
Qed.

Lemma strtol10_version_006 (buf : list byte) :
  take 4 (drop 4 buf) = version_006 → strtol10 (drop 4 buf) = Some 6.
Proof. intros H%take_4_inv. by rewrite H. Qed.

Lemma strtol10_version_010 (buf : list byte) :
  take 4 (drop 4 buf) = version_010 → strtol10 (drop 4 buf) = Some 10.
Proof. intros H%take_4_inv. by rewrite H. Qed.

(** The byte of an ASCII digit. *)
Lemma digit_byte (a : Z) :
  0 <= a <= 9 →
  isspace (byte_of (48 + a)) = false ∧
  byte_of (48 + a) ≠ x2d ∧
  byte_of (48 + a) ≠ x2b ∧
  digit_of (byte_of (48 + a)) = Some a.
Proof.
  intros Ha.
  assert (a = 0 ∨ a = 1 ∨ a = 2 ∨ a = 3 ∨ a = 4 ∨
          a = 5 ∨ a = 6 ∨ a = 7 ∨ a = 8 ∨ a = 9) as Hcases by lia.
  repeat destruct Hcases as [-> | Hcases]; try subst a;
    by repeat split.
Qed.

(** On three ASCII digits closed by a NUL byte, [strtol] in base 10 returns
    the number they spell in decimal. *)
Lemma strtol10_three_digits (a b c : Z) (rest : list byte) :
  0 <= a <= 9 → 0 <= b <= 9 → 0 <= c <= 9 →
  strtol10 (byte_of (48 + a) :: byte_of (48 + b) :: byte_of (48 + c)
              :: x00 :: rest) = Some (100 * a + 10 * b + c).
Proof.
  intros Ha Hb Hc.
  destruct (digit_byte a Ha) as (Hsp & Hm & Hp & Hda).
  destruct (digit_byte b Hb) as (_ & _ & _ & Hdb).
  destruct (digit_byte c Hc) as (_ & _ & _ & Hdc).
  unfold strtol10. cbn [strtol_space]. rewrite Hsp.
  cbn [strtol_sign]. rewrite !decide_False by done.
  cbn [strtol_digits]. rewrite Hda, Hdb, Hdc.
  change (digit_of x00) with (@None Z). cbn [mbind option_bind].
  f_equal. unfold LONG_MIN, LONG_MAX. lia.
Qed.

Section BackendSelection.
Context `{!DexLayout} `{!Externals}.

Lemma LOGMSGS_nil (st : main_state) : LOGMSGS [] st = st.
Proof. destruct st. unfold LOGMSGS. simpl. by rewrite app_nil_r. Qed.

(** C5: [selectVdexBackend] applies [strtol] in base 10 to the version
    field; on a field of three ASCII digits closed by a NUL byte the value
    is the number they spell in decimal, and on a header that passed
    validation it is 6 for the field "006" and 10 for "010". When the value
    is 6 the call returns true and leaves each of the four pointers bound to its v6
    function, whatever was bound before, so that [vdex_process] then runs
    the v6 backend; when it is 10 the same holds with the v10 functions.
    For every other value it returns false and leaves the pointers alone;
    the loop body then only logs, counts nothing, and the loop goes on to
    run its body on the file that follows. *)
Theorem C5_selectVdexBackend_dispatch
    (buf : list byte) (v : Z) (st : main_state) :
  strtol10 (drop 4 buf) = Some v →
  (∀ a b c,
     0 <= a <= 9 → 0 <= b <= 9 → 0 <= c <= 9 →
     take 4 (drop 4 buf) =
       [byte_of (48 + a); byte_of (48 + b); byte_of (48 + c); x00] →
     v = 100 * a + 10 * b + c) ∧
  (vdex_isValidVdex buf = Some true →
   (take 4 (drop 4 buf) = version_006 ∧ v = 6) ∨
   (take 4 (drop 4 buf) = version_010 ∧ v = 10)) ∧
  (v = 6 →
   selectVdexBackend buf st = Some (true, set_ptrs ptrs_v6 st) ∧
   ∃ st',
     selectVdexBackend buf st = Some (true, st') ∧
     initDepsInfoPtr (ptrs st') = Some vdex_initDepsInfo_v6 ∧
     destroyDepsInfoPtr (ptrs st') = Some vdex_destroyDepsInfo_v6 ∧
     dumpDepsInfoPtr (ptrs st') = Some vdex_dumpDepsInfo_v6 ∧
     processPtr (ptrs st') = Some vdex_process_v6 ∧
     processedVdexCnt st' = processedVdexCnt st ∧
     processedDexCnt st' = processedDexCnt st ∧
     disStatus st' = disStatus st ∧
     log st' = log st ∧
     ∀ file cursor pRunArgs,
       vdex_process file cursor pRunArgs (ptrs st') =
         Some (backend_process vdex_process_v6 file cursor pRunArgs)) ∧
  (v = 10 →
   selectVdexBackend buf st = Some (true, set_ptrs ptrs_v10 st) ∧
   ∃ st',
     selectVdexBackend buf st = Some (true, st') ∧
     initDepsInfoPtr (ptrs st') = Some vdex_initDepsInfo_v10 ∧
     destroyDepsInfoPtr (ptrs st') = Some vdex_destroyDepsInfo_v10 ∧
     dumpDepsInfoPtr (ptrs st') = Some vdex_dumpDepsInfo_v10 ∧
     processPtr (ptrs st') = Some vdex_process_v10 ∧
     processedVdexCnt st' = processedVdexCnt st ∧
     processedDexCnt st' = processedDexCnt st ∧
     disStatus st' = disStatus st ∧
     log st' = log st ∧
     ∀ file cursor pRunArgs,
       vdex_process file cursor pRunArgs (ptrs st') =
         Some (backend_process vdex_process_v10 file cursor pRunArgs)) ∧
  (v ≠ 6 → v ≠ 10 →
   let st' := LOGMSG l_ERROR "Invalid Vdex version" st in
   let st'' :=
     LOGMSG l_WARN "Failed to initialize Vdex backend - skipping '%s'" st' in
   selectVdexBackend buf st = Some (false, st') ∧
   ptrs st' = ptrs st ∧
   ptrs st'' = ptrs st ∧
   processedVdexCnt st'' = processedVdexCnt st ∧
   processedDexCnt st'' = processedDexCnt st ∧
   log st'' =
     (log st ++
      [(l_ERROR, "Invalid Vdex version"%string);
       (l_WARN,
        "Failed to initialize Vdex backend - skipping '%s'"%string)])%list ∧
   ∀ pRunArgs file files,
     main_file_backend pRunArgs file buf st = Some st'' ∧
     main_file_backend pRunArgs file buf st ≫= main_loop pRunArgs files =
       main_loop pRunArgs files st'' ∧
     ∀ file' mapped',
       main_file_backend pRunArgs file buf st ≫=
         main_loop pRunArgs ((file', mapped') :: files) =
       main_file pRunArgs file' mapped' st'' ≫= main_loop pRunArgs files).
Proof.
  intros Hv. split.
  { intros a b c Ha Hb Hc Hfield%take_4_inv.
    rewrite Hfield, strtol10_three_digits in Hv by done. congruence. }
  assert (∀ pRunArgs file,
            v ≠ 6 → v ≠ 10 →
            main_file_backend pRunArgs file buf st =
              Some (LOGMSG l_WARN
                      "Failed to initialize Vdex backend - skipping '%s'"
                      (LOGMSG l_ERROR "Invalid Vdex version" st)))
    as Hskip.
  { intros pRunArgs file H6 H10. unfold main_file_backend, selectVdexBackend.
    change (Z.to_nat off_version) with 4%nat.
    rewrite Hv. cbn [mbind option_bind]. by rewrite !decide_False by done. }
  split; [|split; [|split]].
  - intros [_ [H6|H10]]%vdex_isValidVdex_true; [left|right].
    + pose proof (strtol10_version_006 _ H6). split; [done|congruence].
    + pose proof (strtol10_version_010 _ H10). split; [done|congruence].
  - intros ->.
    assert (selectVdexBackend buf st = Some (true, set_ptrs ptrs_v6 st))
      as Hsel.
    { unfold selectVdexBackend. change (Z.to_nat off_version) with 4%nat.
      rewrite Hv. cbn [mbind option_bind]. rewrite decide_True by done.
      cbn [vdex_backendInit]. by rewrite LOGMSGS_nil. }
    split; [done|]. exists (set_ptrs ptrs_v6 st). by repeat split.
  - intros ->.
    assert (selectVdexBackend buf st = Some (true, set_ptrs ptrs_v10 st))
      as Hsel.
    { unfold selectVdexBackend. change (Z.to_nat off_version) with 4%nat.
      rewrite Hv. cbn [mbind option_bind].
      rewrite decide_False, decide_True by done.
      cbn [vdex_backendInit]. by rewrite LOGMSGS_nil. }
    split; [done|]. exists (set_ptrs ptrs_v10 st). by repeat split.
  - intros H6 H10 st' st''. split.
    { unfold selectVdexBackend. change (Z.to_nat off_version) with 4%nat.
      rewrite Hv. cbn [mbind option_bind]. by rewrite !decide_False by done. }
    do 4 (split; [done|]). split.
    { subst st' st''. cbn [LOGMSG log]. by rewrite <- app_assoc. }
    intros pRunArgs file files.
    rewrite (Hskip pRunArgs file H6 H10). by repeat split.
Qed.
End BackendSelection.

Lemma C5_selectVdexBackend_dispatch_witness :
  selectVdexBackend (mk_header version_006 1 112 0 0) main_state_init =
    Some (true, set_ptrs ptrs_v6 main_state_init) ∧
  selectVdexBackend (mk_header version_010 1 112 0 0) main_state_init =
    Some (true, set_ptrs ptrs_v10 main_state_init) ∧
  selectVdexBackend (mk_header [x30; x30; x37; x00] 1 112 0 0) main_state_init =
    Some (false, LOGMSG l_ERROR "Invalid Vdex version" main_state_init) ∧
  7 = 100 * 0 + 10 * 0 + 7 ∧
  (∃ st',
     selectVdexBackend (mk_header version_010 1 112 0 0)
       (set_ptrs ptrs_v6 main_state_init) = Some (true, st') ∧
     processPtr (ptrs st') = Some vdex_process_v10) ∧
  processedVdexCnt <$>
    (@main_file_backend externals_ok runArgs_default "v7.vdex"
       (mk_header [x30; x30; x37; x00] 1 112 0 0) main_state_init ≫=
     @main_loop dex_035 externals_ok runArgs_default
       [("base.vdex"%string, Some two_dex_vdex)]) = Some 1.
Proof.
  pose proof (@C5_selectVdexBackend_dispatch dex_035 externals_ok) as H.
  split; [|split; [|split; [|split; [|split]]]].
  - destruct (H (mk_header version_006 1 112 0 0) 6 main_state_init)
      as (_ & _ & H6 & _); [reflexivity|]. apply H6. reflexivity.
  - destruct (H (mk_header version_010 1 112 0 0) 10 main_state_init)
      as (_ & _ & _ & H10 & _); [reflexivity|]. apply H10. reflexivity.
  - destruct (H (mk_header [x30; x30; x37; x00] 1 112 0 0) 7 main_state_init)
      as (_ & _ & _ & _ & H7); [reflexivity|].
    destruct H7 as (H7 & _); [lia | lia | exact H7].
  - destruct (H (mk_header [x30; x30; x37; x00] 1 112 0 0) 7 main_state_init)
      as (Hdec & _); [reflexivity|].
    apply (Hdec 0 0 7); [lia | lia | lia | reflexivity].
  - destruct (H (mk_header version_010 1 112 0 0) 10
                (set_ptrs ptrs_v6 main_state_init))
      as (_ & _ & _ & H10 & _); [reflexivity|].
    destruct H10 as (_ & st' & Hsel & _ & _ & _ & Hp & _); [reflexivity|].
    exists st'. split; [exact Hsel | exact Hp].
  - destruct (H (mk_header [x30; x30; x37; x00] 1 112 0 0) 7 main_state_init)
      as (_ & _ & _ & _ & H7); [reflexivity|].
    destruct H7 as (_ & _ & _ & _ & _ & _ & Hrun); [lia | lia |].
    destruct (Hrun runArgs_default "v7.vdex"%string []) as (_ & _ & Hnext).
    rewrite (Hnext "base.vdex"%string (Some two_dex_vdex)).
    vm_compute. reflexivity.
Defined.

(** ** Stores and the checksum rewriter *)

Lemma store_byte_app (l1 pre l2 : list byte) (b0 b : byte) (off : Z) :
  off = Z.of_nat (length l1 + length pre) →
  store_byte (l1 ++ pre ++ b0 :: l2) off b = Some (l1 ++ pre ++ b :: l2).
Proof.
  intros ->. unfold store_byte.
  rewrite decide_True by (rewrite !length_app; simpl; lia).
  rewrite Nat2Z.id. f_equal.
  rewrite insert_app_r. f_equal.
  by rewrite <- (Nat.add_0_r (length pre)), insert_app_r.
Qed.

Lemma store_u4_app (l1 l2 : list byte) (b0 b1 b2 b3 : byte) (off v : Z) :
  off = Z.of_nat (length l1) →
  store_u4 (l1 ++ b0 :: b1 :: b2 :: b3 :: l2) off v = Some (l1 ++ le32 v ++ l2).
Proof.
  intros ->. unfold store_u4, le32.
  set (c0 := byte_of v). set (c1 := byte_of (v / 2 ^ 8)).
  set (c2 := byte_of (v / 2 ^ 16)). set (c3 := byte_of (v / 2 ^ 24)).
  pose proof (store_byte_app l1 [] (b1 :: b2 :: b3 :: l2) b0 c0
                (Z.of_nat (length l1)) ltac:(simpl; lia)) as H0.
  pose proof (store_byte_app l1 [c0] (b2 :: b3 :: l2) b1 c1
                (Z.of_nat (length l1) + 1) ltac:(simpl; lia)) as H1.
  pose proof (store_byte_app l1 [c0; c1] (b3 :: l2) b2 c2
                (Z.of_nat (length l1) + 2) ltac:(simpl; lia)) as H2.
  pose proof (store_byte_app l1 [c0; c1; c2] l2 b3 c3
                (Z.of_nat (length l1) + 3) ltac:(simpl; lia)) as H3.
  cbn [app] in H0, H1, H2, H3.
  rewrite H0. cbn [mbind option_bind]. rewrite H1. cbn [mbind option_bind].
  rewrite H2. cbn [mbind option_bind]. by rewrite H3.
Qed.

(** A 32-bit store inside the mapping replaces four bytes and nothing
    else. *)
Lemma store_u4_take_drop (buf : list byte) (a : nat) (v : Z) :
  (a + 4 <= length buf)%nat →
  store_u4 buf (Z.of_nat a) v = Some (take a buf ++ le32 v ++ drop (a + 4) buf).
Proof.
  intros Hlen.
  assert (Hd : length (drop a buf) = (length buf - a)%nat) by apply length_drop.
  destruct (drop a buf) as [|b0 [|b1 [|b2 [|b3 rest]]]] eqn:E;
    simpl in Hd; try lia.
  assert (rest = drop (a + 4) buf) as ->.
  { rewrite <- drop_drop, E. done. }
  rewrite <- (take_drop a buf) at 1. rewrite E.
  apply store_u4_app. rewrite length_take. lia.
Qed.

Lemma updateChecksums_loop_spec (cs : list Z) (k : nat) :
  ∀ (i : nat) (buf : list byte),
    (i + k <= length cs)%nat →
    (24 + 4 * (i + k) <= length buf)%nat →
    updateChecksums_loop buf cs (Z.of_nat i) k =
      Some (take (24 + 4 * i) buf ++
            concat (le32 <$> take k (drop i cs)) ++
            drop (24 + 4 * (i + k)) buf).
Proof.
  induction k as [|k IH]; intros i buf Hcs Hbuf.
  { cbn [updateChecksums_loop]. rewrite Nat.add_0_r, take_0, fmap_nil.
    change (concat []) with (@nil byte). by rewrite app_nil_l, take_drop. }
  cbn [updateChecksums_loop]. rewrite Nat2Z.id.
  destruct (lookup_lt_is_Some_2 cs i ltac:(lia)) as [c Hc].
  rewrite Hc. cbn [mbind option_bind].
  unfold vdex_SetLocationChecksum, sizeof_vdexHeader, sizeof_VdexChecksum.
  replace (24 + 4 * Z.of_nat i) with (Z.of_nat (24 + 4 * i)) by lia.
  rewrite store_u4_take_drop by lia. cbn [mbind option_bind].
  set (a := (24 + 4 * i)%nat).
  set (buf' := take a buf ++ le32 c ++ drop (a + 4) buf).
  replace (Z.of_nat i + 1) with (Z.of_nat (S i)) by lia.
  assert (Hpre : length (take a buf ++ le32 c) = (a + 4)%nat).
  { rewrite length_app, length_take.
    change (length (le32 c)) with 4%nat. lia. }
  rewrite IH; [|lia|].
  2:{ unfold buf'. rewrite !length_app, length_take, length_drop.
      change (length (le32 c)) with 4%nat. lia. }
  rewrite (drop_S _ _ _ Hc), firstn_cons, fmap_cons, concat_cons.
  f_equal. unfold buf'. rewrite !(assoc_L (++)).
  f_equal; [f_equal|].
  - replace (24 + 4 * S i)%nat with (a + 4)%nat by lia.
    by apply take_app_length'.
  - replace (24 + 4 * (S i + k))%nat with ((a + 4) + 4 * k)%nat by lia.
    rewrite drop_app_add' by done.
    rewrite drop_drop. f_equal. lia.
Qed.

Section ChecksumRewrite.
Context `{!Externals}.

(** C6: on a valid container with [numberOfDexFiles = 2] whose checksum
    table lies inside the mapping, [vdex_updateChecksums] with the
    checksums 0x11111111 and 22 succeeds when the writer does, and the
    buffer it hands to the writer equals the input at every offset outside
    [24, 32) and holds 11 11 11 11 16 00 00 00 at offsets 24 to 31. *)
Theorem C6_checksum_rewrite_scenario
    (buf : list byte) (file : string) (pRunArgs : runArgs_t) :
  vdex_isValidVdex buf = Some true →
  hdr_numberOfDexFiles buf = Some 2 →
  (32 <= length buf)%nat →
  let out := take 24 buf ++ s4_checksum_bytes ++ drop 32 buf in
  outWriter_VdexFile pRunArgs file out = true →
  vdex_updateChecksums file (Some buf) 2 [286331153; 22] pRunArgs =
    Some {| upd_ret := true; upd_buf := Some out; upd_written := Some out;
            upd_log := [] |} ∧
  length out = length buf ∧
  (∀ i, (i < 24 ∨ 32 <= i)%nat → out !! i = buf !! i) ∧
  (∀ j, (j < 8)%nat → out !! (24 + j)%nat = s4_checksum_bytes !! j).
Proof.
  intros Hvalid Hn Hlen out Hw.
  assert (Htake : length (take 24 buf) = 24%nat)
    by (rewrite length_take; lia).
  split; [|split; [|split]].
  - unfold vdex_updateChecksums. rewrite Hvalid. cbn [mbind option_bind negb].
    rewrite Hn. cbn [mbind option_bind].
    rewrite decide_False by (intros Hx; by apply Hx).
    change (Z.to_nat 2) with 2%nat. change 0 with (Z.of_nat 0) at 1.
    rewrite (updateChecksums_loop_spec [286331153; 22] 2 0 buf)
      by (simpl; lia).
    cbn [mbind option_bind].
    change (take (24 + 4 * 0) buf ++
            concat (le32 <$> take 2 (drop 0 [286331153; 22])) ++
            drop (24 + 4 * (0 + 2)) buf) with out.
    by rewrite Hw.
  - unfold out. rewrite !length_app, Htake, length_drop.
    change (length s4_checksum_bytes) with 8%nat. lia.
  - intros i [Hi|Hi]; unfold out.
    + rewrite lookup_app_l by lia. by apply lookup_take_lt.
    + rewrite lookup_app_r by lia. rewrite Htake.
      rewrite lookup_app_r
        by (change (length s4_checksum_bytes) with 8%nat; lia).
      change (length s4_checksum_bytes) with 8%nat.
      rewrite lookup_drop. f_equal. lia.
  - intros j Hj. unfold out.
    rewrite lookup_app_r by lia. rewrite Htake.
    replace (24 + j - 24)%nat with j by lia.
    apply lookup_app_l. change (length s4_checksum_bytes) with 8%nat. lia.
Qed.

(** C7: when the number of checksums read from the sidecar file differs
    from the header's [numberOfDexFiles], [vdex_updateChecksums] returns
    false, releases the mapping with every byte as it was and hands
    nothing to the writer. Nothing is logged at the fatal level, and [main]
    reaches its end in the ordinary way, by reporting the failure at the
    error level and leaving with [EXIT_FAILURE]. *)
Theorem C7_checksum_count_mismatch
    (buf : list byte) (n nCsums : Z) (checksums : list Z)
    (file : string) (pRunArgs : runArgs_t) :
  hdr_numberOfDexFiles buf = Some n →
  0 <= nCsums < 2 ^ 31 →
  nCsums ≠ n →
  ∃ r,
    vdex_updateChecksums file (Some buf) nCsums checksums pRunArgs = Some r ∧
    upd_ret r = false ∧
    upd_buf r = Some buf ∧
    upd_written r = None ∧
    Forall (λ e : log_event, e.1 ≠ l_FATAL) (upd_log r) ∧
    (1 <= nCsums →
     ∃ evs,
       main_newCrc pRunArgs [(file, Some buf)] (Some checksums) nCsums =
         Some (EXIT_FAILURE, evs) ∧
       Forall (λ e : log_event, e.1 ≠ l_FATAL) evs).
Proof.
  intros Hn Hrange Hne.
  apply load_u4_Some_inv in Hn as Hn'.
  destruct Hn' as (_ & Hlen & _). unfold off_numberOfDexFiles in Hlen.
  destruct (vdex_isValidVdex_is_Some buf ltac:(lia)) as [valid Hvalid].
  assert (∃ r,
    vdex_updateChecksums file (Some buf) nCsums checksums pRunArgs = Some r ∧
    upd_ret r = false ∧ upd_buf r = Some buf ∧ upd_written r = None ∧
    Forall (λ e : log_event, e.1 ≠ l_FATAL) (upd_log r))
    as (r & Hr & Hret & Hbuf & Hwr & Hlog).
  { unfold vdex_updateChecksums. rewrite Hvalid. cbn [mbind option_bind].
    destruct valid; cbn [negb].
    - rewrite Hn. cbn [mbind option_bind].
      rewrite decide_True by (rewrite u4_small by lia; done).
      eexists. repeat split. by repeat constructor.
    - eexists. repeat split. by repeat constructor. }
  exists r. repeat split; try done.
  intros Hpos. unfold main_newCrc.
  rewrite decide_False by lia. rewrite Hr. cbn [mbind option_bind].
  rewrite Hret. cbn [negb].
  eexists. split; [done|].
  apply Forall_app. split; [done|]. by repeat constructor.
Qed.
End ChecksumRewrite.

Lemma C6_checksum_rewrite_scenario_witness :
  let out := take 24 two_dex_vdex ++ s4_checksum_bytes ++ drop 32 two_dex_vdex in
  @vdex_updateChecksums externals_ok "base.vdex"%string (Some two_dex_vdex) 2
      [286331153; 22] runArgs_default =
    Some {| upd_ret := true; upd_buf := Some out; upd_written := Some out;
            upd_log := [] |} ∧
  length out = length two_dex_vdex ∧
  (∀ i, (i < 24 ∨ 32 <= i)%nat → out !! i = two_dex_vdex !! i) ∧
  (∀ j, (j < 8)%nat → out !! (24 + j)%nat = s4_checksum_bytes !! j).
Proof.
  apply (@C6_checksum_rewrite_scenario externals_ok two_dex_vdex
           "base.vdex"%string runArgs_default).
  - reflexivity.
  - reflexivity.
  - vm_compute. lia.
  - reflexivity.
Defined.

Lemma C7_checksum_count_mismatch_witness :
  ∃ r,
    @vdex_updateChecksums externals_ok "base.vdex"%string (Some two_dex_vdex) 3
        [1; 2; 3] runArgs_default = Some r ∧
    upd_ret r = false ∧
    upd_buf r = Some two_dex_vdex ∧
    upd_written r = None ∧
    Forall (λ e : log_event, e.1 ≠ l_FATAL) (upd_log r) ∧
    (1 <= 3 →
     ∃ evs,
       @main_newCrc externals_ok runArgs_default
           [("base.vdex"%string, Some two_dex_vdex)] (Some [1; 2; 3]) 3 =
         Some (EXIT_FAILURE, evs) ∧
       Forall (λ e : log_event, e.1 ≠ l_FATAL) evs).
Proof.
  apply (@C7_checksum_count_mismatch externals_ok two_dex_vdex 2 3 [1; 2; 3]
           "base.vdex"%string runArgs_default).
  - reflexivity.
  - lia.
  - lia.
Defined.

(** ** The per-file loop of main *)

Lemma skipped_app (l1 l2 : list log_event) :
  skipped (l1 ++ l2) = (skipped l1 + skipped l2)%nat.
Proof. unfold skipped. by rewrite List.filter_app, length_app. Qed.

Lemma skipped_skip (e : log_event) : is_skip e = true → skipped [e] = 1%nat.
Proof. intros H. unfold skipped. simpl. by rewrite H. Qed.

Lemma skipped_other (e : log_event) : is_skip e = false → skipped [e] = 0%nat.
Proof. intros H. unfold skipped. simpl. by rewrite H. Qed.

Section MainLoop.
Context `{!DexLayout} `{!Externals}.

Lemma skipped_LOGMSG (ll : log_level) (msg : string) (st : main_state) :
  skipped (log (LOGMSG ll msg st)) =
    (skipped (log st) + skipped [(ll, msg)])%nat.
Proof. unfold LOGMSG. cbn [log]. apply skipped_app. Qed.

(** After validation the version field reads 6 or 10, so that
    [selectVdexBackend] binds the backend of that version. *)
Lemma selectVdexBackend_validated (buf : list byte) (st : main_state) :
  vdex_isValidVdex buf = Some true →
  ∃ p, selectVdexBackend buf st = Some (true, set_ptrs p st) ∧
       (p = ptrs_v6 ∨ p = ptrs_v10) ∧
       processPtr p = Some (selected_process buf).
Proof.
  intros [_ Hver]%vdex_isValidVdex_true.
  unfold selectVdexBackend, selected_process.
  change (Z.to_nat off_version) with 4%nat.
  destruct Hver as [H6|H10].
  - rewrite (strtol10_version_006 _ H6). cbn [mbind option_bind].
    rewrite decide_True by done. cbn [vdex_backendInit].
    rewrite LOGMSGS_nil, bool_decide_eq_true_2 by done. eauto.
  - rewrite (strtol10_version_010 _ H10). cbn [mbind option_bind].
    rewrite decide_False, decide_True by done. cbn [vdex_backendInit].
    rewrite LOGMSGS_nil.
    rewrite bool_decide_eq_false_2 by (rewrite H10; done). eauto.
Qed.

Lemma main_dumpDeps_bound (buf : list byte) (st : main_state) :
  ptrs st = ptrs_v6 ∨ ptrs st = ptrs_v10 →
  ∃ st', main_dumpDeps buf st = Some st' ∧
    ptrs st' = ptrs st ∧
    processedVdexCnt st' = processedVdexCnt st ∧
    processedDexCnt st' = processedDexCnt st ∧
    skipped (log st') = skipped (log st).
Proof.
  intros Hp. unfold main_dumpDeps, vdex_initDepsInfo, vdex_dumpDepsInfo,
    vdex_destroyDepsInfo.
  set (st1 := log_setDisStatus true st).
  assert (Hst1 : ptrs st1 = ptrs st) by done.
  assert (∃ f g h, initDepsInfoPtr (ptrs st1) = Some f ∧
                   dumpDepsInfoPtr (ptrs st1) = Some g ∧
                   destroyDepsInfoPtr (ptrs st1) = Some h)
    as (f & g & h & Hf & Hg & Hh).
  { rewrite Hst1.
    destruct Hp as [Hp|Hp]; rewrite Hp; eexists _, _, _; repeat split. }
  rewrite Hf. cbn [mbind option_bind].
  destruct (backend_initDepsInfo f buf); cbn [negb mbind option_bind].
  - rewrite Hg, Hh. cbn [mbind option_bind].
    eexists. split; [reflexivity|]. done.
  - eexists. split; [reflexivity|].
    cbn [log_setDisStatus ptrs processedVdexCnt processedDexCnt log].
    rewrite skipped_LOGMSG, skipped_other by reflexivity.
    repeat split. change (log st1) with (log st). lia.
Qed.

Lemma main_file_backend_outcome (pRunArgs : runArgs_t) (file : string)
    (buf : list byte) (st : main_state) :
  file_validates (Some buf) = true →
  ∃ st', main_file_backend pRunArgs file buf st = Some st' ∧
         outcome pRunArgs file (Some buf) st st'.
Proof.
  intros Hval. unfold outcome, file_fails. rewrite Hval. cbn [negb orb].
  apply andb_true_iff in Hval as [_ Hvalid%bool_decide_eq_true].
  destruct (selectVdexBackend_validated buf st Hvalid)
    as (p & Hsel & Hp & Hproc).
  unfold main_file_backend. rewrite Hsel. cbn [mbind option_bind negb].
  assert (∃ st1, (if dumpDeps pRunArgs
                  then main_dumpDeps buf (set_ptrs p st)
                  else Some (set_ptrs p st)) = Some st1 ∧
            ptrs st1 = p ∧
            processedVdexCnt st1 = processedVdexCnt st ∧
            processedDexCnt st1 = processedDexCnt st ∧
            skipped (log st1) = skipped (log st))
    as (st1 & -> & Hp1 & Hv1 & Hd1 & Hs1).
  { destruct (dumpDeps pRunArgs).
    - destruct (main_dumpDeps_bound buf (set_ptrs p st) Hp)
        as (st1 & ? & ? & ? & ? & ?). by exists st1.
    - by eexists. }
  cbn [mbind option_bind].
  set (st2 := if enableDisassembler pRunArgs
              then log_setDisStatus true st1 else st1).
  assert (ptrs st2 = p ∧
          processedVdexCnt st2 = processedVdexCnt st ∧
          processedDexCnt st2 = processedDexCnt st ∧
          skipped (log st2) = skipped (log st)) as (Hp2 & Hv2 & Hd2 & Hs2).
  { unfold st2. by destruct (enableDisassembler pRunArgs). }
  unfold vdex_process. rewrite Hp2, Hproc. cbn [mbind option_bind].
  set (ret := backend_process (selected_process buf) file buf pRunArgs).
  destruct (decide (ret = -1)) as [Hret|Hret].
  - rewrite bool_decide_eq_true_2 by done.
    eexists. split; [reflexivity|].
    rewrite skipped_LOGMSG, skipped_skip by reflexivity.
    cbn [LOGMSG processedVdexCnt processedDexCnt]. repeat split; lia.
  - rewrite bool_decide_eq_false_2 by done.
    eexists. split; [reflexivity|]. exists ret.
    cbn [count_processed processedVdexCnt processedDexCnt log].
    repeat split; congruence.
Qed.

Lemma main_file_outcome (pRunArgs : runArgs_t) (file : string)
    (mapped : option (list byte)) (st : main_state) :
  file_safe mapped = true →
  ∃ st', main_file pRunArgs file mapped st = Some st' ∧
         outcome pRunArgs file mapped st st'.
Proof.
  intros Hsafe. unfold main_file.
  set (st0 := LOGMSG l_DEBUG "Processing '%s'" st).
  assert (processedVdexCnt st0 = processedVdexCnt st ∧
          processedDexCnt st0 = processedDexCnt st ∧
          skipped (log st0) = skipped (log st)) as (Hv0 & Hd0 & Hs0).
  { unfold st0. rewrite skipped_LOGMSG, skipped_other by reflexivity.
    cbn [LOGMSG processedVdexCnt processedDexCnt]. repeat split; lia. }
  assert (Hskip : ∀ ll msg, is_skip (ll, msg) = true →
            processedVdexCnt (LOGMSG ll msg st0) = processedVdexCnt st ∧
            processedDexCnt (LOGMSG ll msg st0) = processedDexCnt st ∧
            skipped (log (LOGMSG ll msg st0)) = S (skipped (log st))).
  { intros ll msg Hm. rewrite skipped_LOGMSG, skipped_skip by done.
    cbn [LOGMSG processedVdexCnt processedDexCnt]. repeat split; lia. }
  destruct mapped as [buf|].
  2:{ eexists. split; [reflexivity|]. unfold outcome, file_fails.
      by apply Hskip. }
  case_decide as Hsz.
  { eexists. split; [reflexivity|]. unfold outcome, file_fails, file_validates.
    rewrite bool_decide_eq_false_2 by lia. cbn [andb negb orb].
    by apply Hskip. }
  assert (Hlen : (8 <= length buf)%nat).
  { unfold sizeof_vdexHeader in Hsz. lia. }
  destruct (vdex_isValidVdex_is_Some buf Hlen) as [valid Hvalid].
  rewrite Hvalid. cbn [mbind option_bind]. destruct valid; cbn [negb].
  - assert (Hval : file_validates (Some buf) = true).
    { unfold file_validates.
      rewrite !bool_decide_eq_true_2 by (done || lia). done. }
    unfold file_safe in Hsafe. rewrite Hval in Hsafe. cbn [negb orb] in Hsafe.
    apply bool_decide_eq_true in Hsafe as [d ->]. cbn [mbind option_bind].
    destruct (main_file_backend_outcome pRunArgs file buf st0 Hval)
      as (st' & Hst' & Hout).
    exists st'. split; [done|].
    unfold outcome in *. rewrite Hv0, Hd0, Hs0 in Hout. done.
  - eexists. split; [reflexivity|]. unfold outcome, file_fails, file_validates.
    rewrite (bool_decide_eq_false_2 (vdex_isValidVdex buf = Some true))
      by (rewrite Hvalid; done).
    rewrite andb_false_r. cbn [negb orb]. by apply Hskip.
Qed.
End MainLoop.

Section MainRun.
Context `{!DexLayout} `{!Externals}.

Lemma failed_cons (pRunArgs : runArgs_t) (file : string)
    (mapped : option (list byte))
    (files : list (string * option (list byte))) :
  failed pRunArgs ((file, mapped) :: files) =
    ((if file_fails pRunArgs file mapped then 1 else 0) +
     failed pRunArgs files)%nat.
Proof.
  unfold failed. cbn [List.filter fst snd].
  by destruct (file_fails pRunArgs file mapped).
Qed.

Lemma failed_le_length (pRunArgs : runArgs_t)
    (files : list (string * option (list byte))) :
  (failed pRunArgs files <= length files)%nat.
Proof. unfold failed. apply List.filter_length_le. Qed.

(** The loop visits every file: each one is either counted or logged as
    given up on. *)
Lemma main_loop_accounts (pRunArgs : runArgs_t)
    (files : list (string * option (list byte))) :
  ∀ st,
    files_safe files = true →
    0 <= processedVdexCnt st < 2 ^ 64 →
    ∃ st', main_loop pRunArgs files st = Some st' ∧
      skipped (log st') = (skipped (log st) + failed pRunArgs files)%nat ∧
      processedVdexCnt st' =
        (processedVdexCnt st +
         (Z.of_nat (length files) - Z.of_nat (failed pRunArgs files)))
        mod 2 ^ 64.
Proof.
  induction files as [|[file mapped] files IH]; intros st Hsafe Hcnt.
  { exists st. cbn [main_loop length]. unfold failed. cbn [List.filter length].
    repeat split; [lia|]. rewrite Z.mod_small; lia. }
  cbn [files_safe forallb snd] in Hsafe.
  apply andb_true_iff in Hsafe as [Hsafe1 Hsafe].
  destruct (main_file_outcome pRunArgs file mapped st Hsafe1)
    as (st1 & Hst1 & Hout).
  cbn [main_loop]. rewrite Hst1. cbn [mbind option_bind].
  rewrite failed_cons. pose proof (failed_le_length pRunArgs files) as Hle.
  unfold outcome in Hout.
  destruct (file_fails pRunArgs file mapped).
  - destruct Hout as (Hv & _ & Hs).
    destruct (IH st1 Hsafe ltac:(rewrite Hv; done)) as (st' & -> & Hs' & Hv').
    exists st'. split; [done|]. rewrite Hs', Hs, Hv', Hv.
    split; [lia|]. f_equal. cbn [length]. lia.
  - destruct Hout as (ret & _ & Hv & _ & Hs).
    assert (0 <= processedVdexCnt st1 < 2 ^ 64) as Hcnt1.
    { rewrite Hv. apply Z.mod_pos_bound. lia. }
    destruct (IH st1 Hsafe Hcnt1) as (st' & -> & Hs' & Hv').
    exists st'. split; [done|]. rewrite Hs', Hs, Hv', Hv.
    split; [lia|]. rewrite Zplus_mod_idemp_l. f_equal. cbn [length]. lia.
Qed.

(** A failed backend selection makes the rest of the body log that the file
    is given up on, and nothing else. *)
Lemma main_file_backend_not_selected (pRunArgs : runArgs_t) (file : string)
    (buf : list byte) (st st1 : main_state) :
  selectVdexBackend buf st = Some (false, st1) →
  ∃ st', main_file_backend pRunArgs file buf st = Some st' ∧
    processedVdexCnt st' = processedVdexCnt st ∧
    processedDexCnt st' = processedDexCnt st ∧
    ptrs st' = ptrs st ∧
    skipped (log st') = S (skipped (log st)).
Proof.
  intros Hsel. unfold main_file_backend. rewrite Hsel.
  cbn [mbind option_bind negb]. eexists. split; [reflexivity|].
  unfold selectVdexBackend in Hsel.
  destruct (strtol10 _) as [v|]; cbn [mbind option_bind] in Hsel; [|done].
  repeat case_decide; cbn [vdex_backendInit] in Hsel; try done.
  injection Hsel as <-.
  rewrite !skipped_LOGMSG, skipped_other, skipped_skip by reflexivity.
  cbn [LOGMSG processedVdexCnt processedDexCnt ptrs]. repeat split. lia.
Qed.

(** C8 (as amended): in a run whose header dumps stay inside the mapped
    files, the loop body ends normally on every file; on a file that fails
    (it cannot be mapped, is too short, has an invalid header, or its
    processing returns -1) it leaves the counters alone and logs that the
    file is given up on, and the loop goes on with the next file; the same
    holds from the point where the backend selection fails. The run ends
    with [EXIT_SUCCESS] whatever happened to the files, also when validation
    succeeded for none of them; the log then holds one such message per
    failed file and the counter of processed containers holds the number of
    the others. *)
Theorem C8_failures_are_skipped_and_exit_is_success (pRunArgs : runArgs_t) :
  (∀ file mapped st,
     file_safe mapped = true →
     ∃ st',
       main_file pRunArgs file mapped st = Some st' ∧
       outcome pRunArgs file mapped st st' ∧
       ∀ files,
         main_loop pRunArgs ((file, mapped) :: files) st =
           main_loop pRunArgs files st') ∧
  (∀ file buf st st1,
     selectVdexBackend buf st = Some (false, st1) →
     ∃ st',
       main_file_backend pRunArgs file buf st = Some st' ∧
       processedVdexCnt st' = processedVdexCnt st ∧
       processedDexCnt st' = processedDexCnt st ∧
       skipped (log st') = S (skipped (log st)) ∧
       ∀ files,
         main_file_backend pRunArgs file buf st ≫= main_loop pRunArgs files =
           main_loop pRunArgs files st') ∧
  (∀ files,
     files_safe files = true →
     ∃ st,
       main_extract pRunArgs files = Some (EXIT_SUCCESS, st) ∧
       skipped (log st) = failed pRunArgs files ∧
       processedVdexCnt st =
         (Z.of_nat (length files) - Z.of_nat (failed pRunArgs files))
         mod 2 ^ 64).
Proof.
  split; [|split].
  - intros file mapped st Hsafe.
    destruct (main_file_outcome pRunArgs file mapped st Hsafe)
      as (st' & Hst' & Hout).
    exists st'. repeat split; [done..|].
    intros files. cbn [main_loop]. by rewrite Hst'.
  - intros file buf st st1 Hsel.
    destruct (main_file_backend_not_selected pRunArgs file buf st st1 Hsel)
      as (st' & Hst' & Hv & Hd & _ & Hs).
    exists st'. repeat split; [done..|].
    intros files. by rewrite Hst'.
  - intros files Hsafe. unfold main_extract.
    set (st0 := LOGMSG l_INFO "Processing %zu file(s) from %s" main_state_init).
    destruct (main_loop_accounts pRunArgs files st0 Hsafe)
      as (st' & -> & Hs & Hv); [done|].
    cbn [mbind option_bind]. eexists. split; [reflexivity|].
    rewrite !skipped_LOGMSG, !skipped_other by reflexivity.
    cbn [LOGMSG processedVdexCnt]. split; [|done].
    rewrite Hs. unfold st0.
    rewrite skipped_LOGMSG, skipped_other by reflexivity.
    cbn [main_state_init log]. unfold skipped at 1. simpl. lia.
Qed.
End MainRun.

Lemma C8_failures_are_skipped_and_exit_is_success_witness :
  (∃ st',
     @main_file dex_035 externals_ok runArgs_default "zero.vdex"
       (Some zero_file) main_state_init = Some st' ∧
     @outcome dex_035 externals_ok runArgs_default "zero.vdex"
       (Some zero_file) main_state_init st' ∧
     ∀ files,
       @main_loop dex_035 externals_ok runArgs_default
         (("zero.vdex"%string, Some zero_file) :: files) main_state_init =
       @main_loop dex_035 externals_ok runArgs_default files st') ∧
  (∃ st',
     @main_file_backend externals_ok runArgs_default "v7.vdex"
       (mk_header [x30; x30; x37; x00] 1 112 0 0) main_state_init = Some st' ∧
     processedVdexCnt st' = 0 ∧
     processedDexCnt st' = 0 ∧
     skipped (log st') = 1%nat) ∧
  (∃ st,
     @main_extract dex_035 externals_ok runArgs_default three_files =
       Some (EXIT_SUCCESS, st) ∧
     skipped (log st) = @failed dex_035 externals_ok runArgs_default three_files ∧
     processedVdexCnt st =
       (Z.of_nat (length three_files) -
        Z.of_nat (@failed dex_035 externals_ok runArgs_default three_files))
       mod 2 ^ 64).
Proof.
  destruct (@C8_failures_are_skipped_and_exit_is_success
              dex_035 externals_ok runArgs_default) as (Hfile & Hsel & Hrun).
  split; [|split].
  - apply (Hfile "zero.vdex"%string (Some zero_file) main_state_init).
    reflexivity.
  - destruct (Hsel "v7.vdex"%string (mk_header [x30; x30; x37; x00] 1 112 0 0)
                main_state_init
                (LOGMSG l_ERROR "Invalid Vdex version" main_state_init))
      as (st' & Hst' & Hv & Hd & Hs & _); [reflexivity|].
    exists st'. repeat split; assumption.
  - apply (Hrun three_files). reflexivity.
Defined.

(** C8 as stated fails: a run over a single file without the magic
    validates no file and still ends with [EXIT_SUCCESS]. *)
Lemma C8_exit_status_counterexample :
  @validation_succeeds dex_035 [("zero.vdex"%string, Some zero_file)] = false ∧
  fst <$> @main_extract dex_035 externals_ok runArgs_default
            [("zero.vdex"%string, Some zero_file)] = Some EXIT_SUCCESS.
Proof. split; vm_compute; reflexivity. Qed.

(* ===================================================================== *)
(** * Further properties of the container accessors *)
(* ===================================================================== *)

(** ** Bytes of a 32-bit value *)

Lemma u1_of_byte_of (z : Z) : u1_of (byte_of z) = z mod 256.
Proof.
  unfold u1_of, byte_of.
  assert (0 <= z mod 256 < 256) as Hr by (apply Z.mod_pos_bound; lia).
  destruct (Byte.of_N (Z.to_N (z mod 256))) as [b|] eqn:E.
  - apply Byte.to_of_N in E. rewrite E. lia.
  - apply Byte.of_N_None_iff in E. lia.
Qed.

Lemma le32_sum (v : Z) :
  v mod 256 + (v / 2 ^ 8) mod 256 * 2 ^ 8 + (v / 2 ^ 16) mod 256 * 2 ^ 16 +
  (v / 2 ^ 24) mod 256 * 2 ^ 24 = u4 v.
Proof.
  unfold u4.
  change (2 ^ 8) with 256. change (2 ^ 16) with 65536.
  change (2 ^ 24) with 16777216. change (2 ^ 32) with 4294967296.
  Z.div_mod_to_equations. lia.
Qed.

Lemma store_byte_Some_inv (buf buf' : list byte) (off : Z) (b : byte) :
  store_byte buf off b = Some buf' →
  0 <= off < Z.of_nat (length buf) ∧ length buf' = length buf.
Proof.
  unfold store_byte. case_decide; [|done]. intros [= <-].
  by rewrite length_insert.
Qed.

(** What a buffer holds after a 32-bit store. *)
Lemma store_u4_lookup (buf buf' : list byte) (a : nat) (v : Z) :
  store_u4 buf (Z.of_nat a) v = Some buf' →
  length buf' = length buf ∧
  (a + 4 <= length buf)%nat ∧
  ∀ i : nat,
    buf' !! i =
      if decide (a <= i < a + 4)%nat then le32 v !! (i - a)%nat else buf !! i.
Proof.
  intros Hst.
  assert (a + 4 <= length buf)%nat as Hlen.
  { unfold store_u4 in Hst.
    destruct (store_byte buf (Z.of_nat a) (byte_of v)) as [b1|] eqn:E1;
      cbn [mbind option_bind] in Hst; [|done].
    destruct (store_byte b1 (Z.of_nat a + 1) (byte_of (v / 2 ^ 8)))
      as [b2|] eqn:E2; cbn [mbind option_bind] in Hst; [|done].
    destruct (store_byte b2 (Z.of_nat a + 2) (byte_of (v / 2 ^ 16)))
      as [b3|] eqn:E3; cbn [mbind option_bind] in Hst; [|done].
    apply store_byte_Some_inv in E1 as [_ E1], E2 as [_ E2], E3 as [_ E3].
    apply store_byte_Some_inv in Hst as [Hst _]. lia. }
  rewrite store_u4_take_drop in Hst by done.
  assert (buf' = take a buf ++ le32 v ++ drop (a + 4) buf) as ->
    by congruence.
  assert (length (take a buf) = a) as Ht by (rewrite length_take; lia).
  split; [|split; [done|]].
  - rewrite !length_app, Ht, length_drop.
    change (length (le32 v)) with 4%nat. lia.
  - intros i. case_decide as Hi.
    + rewrite lookup_app_r by lia. rewrite Ht.
      apply lookup_app_l. change (length (le32 v)) with 4%nat. lia.
    + destruct (decide (i < a)%nat).
      * rewrite lookup_app_l by lia. by apply lookup_take_lt.
      * rewrite lookup_app_r by lia. rewrite Ht.
        rewrite lookup_app_r by (change (length (le32 v)) with 4%nat; lia).
        change (length (le32 v)) with 4%nat.
        rewrite lookup_drop. f_equal. lia.
Qed.

Lemma load_u4_stored (buf buf' : list byte) (a : nat) (v : Z) :
  store_u4 buf (Z.of_nat a) v = Some buf' →
  load_u4 buf' (Z.of_nat a) = Some (u4 v).
Proof.
  intros (_ & Hlen & Hlk)%store_u4_lookup.
  unfold load_u4, load_u1.
  rewrite !load_byte_lookup by lia.
  replace (Z.to_nat (Z.of_nat a)) with a by lia.
  replace (Z.to_nat (Z.of_nat a + 1)) with (a + 1)%nat by lia.
  replace (Z.to_nat (Z.of_nat a + 2)) with (a + 2)%nat by lia.
  replace (Z.to_nat (Z.of_nat a + 3)) with (a + 3)%nat by lia.
  rewrite !Hlk. rewrite !decide_True by lia.
  replace (a - a)%nat with 0%nat by lia.
  replace (a + 1 - a)%nat with 1%nat by lia.
  replace (a + 2 - a)%nat with 2%nat by lia.
  replace (a + 3 - a)%nat with 3%nat by lia.
  cbn [le32 lookup list_lookup fmap option_fmap option_map mbind option_bind].
  rewrite !u1_of_byte_of. by rewrite le32_sum.
Qed.

(** A load that does not overlap the stored word sees the old bytes. *)
Lemma load_u4_store_other (buf buf' : list byte) (a : nat) (v off : Z) :
  store_u4 buf (Z.of_nat a) v = Some buf' →
  off + 4 <= Z.of_nat a ∨ Z.of_nat a + 4 <= off →
  load_u4 buf' off = load_u4 buf off.
Proof.
  intros (_ & _ & Hlk)%store_u4_lookup Hdis.
  apply load_u4_ext. intros i Hi. unfold load_byte.
  case_decide; [|done]. rewrite Hlk. by rewrite decide_False by lia.
Qed.

(** ** Reading and writing one location checksum *)

Lemma checksum_offset (i : Z) :
  0 <= i →
  sizeof_vdexHeader + sizeof_VdexChecksum * i =
    Z.of_nat (24 + 4 * Z.to_nat i).
Proof. intros Hi. unfold sizeof_vdexHeader, sizeof_VdexChecksum. lia. Qed.

(** X1: a checksum written with [vdex_SetLocationChecksum] is read back by
    [vdex_GetLocationChecksum] at the same index, reduced to 32 bits, and the
    checksum at any other index reads as before. *)
Theorem X1_checksum_set_then_get (buf buf' : list byte) (i v : Z) :
  0 <= i →
  vdex_SetLocationChecksum buf i v = Some buf' →
  vdex_GetLocationChecksum buf' i = Some (u4 v) ∧
  ∀ j, 0 <= j → j ≠ i →
    vdex_GetLocationChecksum buf' j = vdex_GetLocationChecksum buf j.
Proof.
  intros Hi. unfold vdex_SetLocationChecksum, vdex_GetLocationChecksum.
  rewrite (checksum_offset i Hi). intros Hst. split.
  - by apply load_u4_stored in Hst.
  - intros j Hj Hne. rewrite (checksum_offset j Hj).
    apply (load_u4_store_other _ _ _ _ _ Hst). lia.
Qed.

Lemma X1_checksum_set_then_get_witness :
  vdex_GetLocationChecksum
    (take 28 two_dex_vdex ++ le32 3735928559 ++ drop 32 two_dex_vdex) 1 =
    Some (u4 3735928559) ∧
  ∀ j, 0 <= j → j ≠ 1 →
    vdex_GetLocationChecksum
      (take 28 two_dex_vdex ++ le32 3735928559 ++ drop 32 two_dex_vdex) j =
    vdex_GetLocationChecksum two_dex_vdex j.
Proof.
  apply (X1_checksum_set_then_get two_dex_vdex _ 1 3735928559).
  - lia.
  - reflexivity.
Defined.

(** Validation looks at bytes 0 to 7 only. *)
Lemma vdex_isValidVdex_ext (b1 b2 : list byte) :
  (∀ i, 0 <= i < 8 → load_byte b1 i = load_byte b2 i) →
  vdex_isValidVdex b1 = vdex_isValidVdex b2.
Proof.
  intros Hload. unfold vdex_isValidVdex, vdex_isMagicValid,
    vdex_isVersionValid, kVdexMagicVersions.
  cbn [isVersionValid_loop].
  rewrite (memcmp_eq_ext b1 b2 kVdexMagic off_magic),
          (memcmp_eq_ext b1 b2 version_006 off_version),
          (memcmp_eq_ext b1 b2 version_010 off_version); [done|..].
  all: intros i Hi; apply Hload;
    unfold off_version, off_magic in Hi; simpl in Hi; lia.
Qed.

(** X2: writing a checksum keeps the length of the mapping and leaves the
    header as it was: validation gives the same verdict and the four header
    numbers, hence every section offset, read as before. *)
Theorem X2_checksum_set_keeps_header (buf buf' : list byte) (i v : Z) :
  0 <= i →
  vdex_SetLocationChecksum buf i v = Some buf' →
  length buf' = length buf ∧
  vdex_isValidVdex buf' = vdex_isValidVdex buf ∧
  hdr_numberOfDexFiles buf' = hdr_numberOfDexFiles buf ∧
  hdr_dexSize buf' = hdr_dexSize buf ∧
  hdr_verifierDepsSize buf' = hdr_verifierDepsSize buf ∧
  hdr_quickeningInfoSize buf' = hdr_quickeningInfoSize buf ∧
  vdex_DexEnd buf' = vdex_DexEnd buf ∧
  vdex_GetQuickeningInfoOffset buf' = vdex_GetQuickeningInfoOffset buf.
Proof.
  intros Hi. unfold vdex_SetLocationChecksum.
  rewrite (checksum_offset i Hi). intros Hst.
  pose proof (store_u4_lookup _ _ _ _ Hst) as (Hlen & _ & Hlk).
  assert (Hhdr : ∀ off, off + 4 <= 24 → load_u4 buf' off = load_u4 buf off).
  { intros off Hoff. apply (load_u4_store_other _ _ _ _ _ Hst). lia. }
  assert (Hn : hdr_numberOfDexFiles buf' = hdr_numberOfDexFiles buf)
    by (apply Hhdr; done).
  assert (Hd : hdr_dexSize buf' = hdr_dexSize buf) by (apply Hhdr; done).
  assert (Hv : hdr_verifierDepsSize buf' = hdr_verifierDepsSize buf)
    by (apply Hhdr; done).
  assert (Hq : hdr_quickeningInfoSize buf' = hdr_quickeningInfoSize buf)
    by (apply Hhdr; done).
  repeat split; try done.
  - apply vdex_isValidVdex_ext. intros k Hk. unfold load_byte.
    case_decide; [|done]. rewrite Hlk. by rewrite decide_False by lia.
  - unfold vdex_DexEnd, vdex_DexBegin, vdex_GetSizeOfChecksumsSection.
    by rewrite Hn, Hd.
  - unfold vdex_GetQuickeningInfoOffset, vdex_GetVerifierDepsDataOffset,
      vdex_DexBeginOffset, vdex_GetSizeOfChecksumsSection.
    by rewrite Hn, Hd, Hv.
Qed.

Lemma X2_checksum_set_keeps_header_witness :
  let buf' := take 28 two_dex_vdex ++ le32 7 ++ drop 32 two_dex_vdex in
  length buf' = length two_dex_vdex ∧
  vdex_isValidVdex buf' = vdex_isValidVdex two_dex_vdex ∧
  hdr_numberOfDexFiles buf' = hdr_numberOfDexFiles two_dex_vdex ∧
  hdr_dexSize buf' = hdr_dexSize two_dex_vdex ∧
  hdr_verifierDepsSize buf' = hdr_verifierDepsSize two_dex_vdex ∧
  hdr_quickeningInfoSize buf' = hdr_quickeningInfoSize two_dex_vdex ∧
  vdex_DexEnd buf' = vdex_DexEnd two_dex_vdex ∧
  vdex_GetQuickeningInfoOffset buf' = vdex_GetQuickeningInfoOffset two_dex_vdex.
Proof.
  apply (X2_checksum_set_keeps_header two_dex_vdex _ 1 7).
  - lia.
  - reflexivity.
Defined.

(** ** The checksum rewriter on any number of DEX files *)

Lemma length_concat_le32 (l : list Z) :
  length (concat (le32 <$> l)) = (4 * length l)%nat.
Proof.
  induction l as [|c l IH]; [done|].
  rewrite fmap_cons, concat_cons, length_app, IH.
  change (length (le32 c)) with 4%nat. cbn [length]. lia.
Qed.

Lemma checksums_rewritten_0 (buf : list byte) (cs : list Z) :
  checksums_rewritten buf 0 cs = buf.
Proof.
  unfold checksums_rewritten. rewrite take_0, fmap_nil.
  change (concat []) with (@nil byte). rewrite app_nil_l.
  change (24 + 4 * 0)%nat with 24%nat. apply take_drop.
Qed.

Lemma checksums_rewritten_length (buf : list byte) (n : nat) (cs : list Z) :
  (n <= length cs)%nat → (24 + 4 * n <= length buf)%nat →
  length (checksums_rewritten buf n cs) = length buf.
Proof.
  intros Hcs Hbuf. unfold checksums_rewritten.
  rewrite !length_app, length_concat_le32, !length_take, length_drop. lia.
Qed.

(** After the loop the entries it visited hold the new checksums and every
    byte outside them is as before. *)
Lemma updateChecksums_loop_content (cs : list Z) (k : nat) :
  ∀ (i : nat) (buf buf' : list byte),
    updateChecksums_loop buf cs (Z.of_nat i) k = Some buf' →
    (∀ j c, (i <= j < i + k)%nat → cs !! j = Some c →
       vdex_GetLocationChecksum buf' (Z.of_nat j) = Some (u4 c)) ∧
    (∀ p : nat, (p < 24 + 4 * i ∨ 24 + 4 * (i + k) <= p)%nat →
       buf' !! p = buf !! p).
Proof.
  induction k as [|k IH]; intros i buf buf' Hloop.
  { injection Hloop as <-. split; [intros; lia|done]. }
  cbn [updateChecksums_loop] in Hloop. rewrite Nat2Z.id in Hloop.
  destruct (cs !! i) as [c|] eqn:Hc; cbn [mbind option_bind] in Hloop;
    [|done].
  unfold vdex_SetLocationChecksum in Hloop.
  rewrite (checksum_offset (Z.of_nat i)) in Hloop by lia.
  rewrite Nat2Z.id in Hloop.
  destruct (store_u4 buf (Z.of_nat (24 + 4 * i)) c) as [buf1|] eqn:Hst;
    cbn [mbind option_bind] in Hloop; [|done].
  pose proof (load_u4_stored _ _ _ _ Hst) as Hread.
  apply store_u4_lookup in Hst as (_ & _ & Hlk).
  replace (Z.of_nat i + 1) with (Z.of_nat (S i)) in Hloop by lia.
  apply IH in Hloop as (Hnew & Hold).
  split.
  - intros j c' Hj Hc'. destruct (decide (j = i)) as [->|Hne].
    + assert (c' = c) as -> by congruence.
      unfold vdex_GetLocationChecksum.
      rewrite (checksum_offset (Z.of_nat i)) by lia. rewrite Nat2Z.id.
      rewrite <- Hread. apply load_u4_ext. intros q Hq.
      unfold load_byte. case_decide; [|done]. apply Hold. lia.
    + apply Hnew; [lia|done].
  - intros p Hp. rewrite Hold by lia. rewrite Hlk.
    by rewrite decide_False by lia.
Qed.

Section ChecksumRewriteGeneral.
Context `{!Externals}.

(** What [vdex_updateChecksums] returns once validation and the count test
    have passed and the loop has room. *)
Lemma vdex_updateChecksums_rewrites
    (buf : list byte) (file : string) (nCsums : Z) (cs : list Z)
    (pRunArgs : runArgs_t) (n : nat) :
  vdex_isValidVdex buf = Some true →
  hdr_numberOfDexFiles buf = Some (Z.of_nat n) →
  u4 nCsums = Z.of_nat n →
  ((0 < n)%nat → (n <= length cs)%nat ∧ (24 + 4 * n <= length buf)%nat) →
  let out := checksums_rewritten buf n cs in
  vdex_updateChecksums file (Some buf) nCsums cs pRunArgs =
    Some {| upd_ret := outWriter_VdexFile pRunArgs file out;
            upd_buf := Some out; upd_written := Some out;
            upd_log := if outWriter_VdexFile pRunArgs file out then []
                       else [(l_ERROR,
                              "Failed to write updated Vdex file"%string)] |}.
Proof.
  intros Hvalid Hn Hcount Hroom out.
  unfold vdex_updateChecksums. rewrite Hvalid. cbn [mbind option_bind negb].
  rewrite Hn. cbn [mbind option_bind].
  rewrite decide_False by (intros Hx; by apply Hx).
  rewrite Nat2Z.id. change 0 with (Z.of_nat 0) at 1.
  assert (updateChecksums_loop buf cs (Z.of_nat 0) n = Some out) as ->.
  { destruct n as [|n].
    - unfold out. by rewrite checksums_rewritten_0.
    - destruct Hroom as [? ?]; [lia|].
      rewrite updateChecksums_loop_spec by (simpl; lia).
      unfold out, checksums_rewritten. by rewrite drop_0. }
  cbn [mbind option_bind].
  by destruct (outWriter_VdexFile pRunArgs file out).
Qed.

(** On a file that holds its whole checksum table, with an array of
    [nCsums] checksums, [vdex_updateChecksums] returns, and what it returns
    is decided by the header, the count and the writer. *)
Lemma vdex_updateChecksums_in_file
    (file : string) (buf : list byte) (nCsums : Z) (cs : list Z)
    (pRunArgs : runArgs_t) (n : nat) :
  hdr_numberOfDexFiles buf = Some (Z.of_nat n) →
  (24 + 4 * n <= length buf)%nat →
  Z.of_nat (length cs) = nCsums →
  nCsums < 2 ^ 31 →
  ∃ r,
    vdex_updateChecksums file (Some buf) nCsums cs pRunArgs = Some r ∧
    (upd_ret r = true ↔
     vdex_isValidVdex buf = Some true ∧
     nCsums = Z.of_nat n ∧
     outWriter_VdexFile pRunArgs file (checksums_rewritten buf n cs) = true).
Proof.
  intros Hn Hbuf Hcs Hint.
  assert (u4 nCsums = nCsums) as Hu4 by (apply u4_small; lia).
  destruct (vdex_isValidVdex_is_Some buf) as [[] Hvalid]; [lia| |].
  - destruct (decide (nCsums = Z.of_nat n)) as [Hcount|Hcount].
    + rewrite (vdex_updateChecksums_rewrites buf file nCsums cs pRunArgs n)
        by (done || lia).
      eexists. split; [reflexivity|]. cbn [upd_ret]. by intuition.
    + unfold vdex_updateChecksums. rewrite Hvalid.
      cbn [mbind option_bind negb]. rewrite Hn. cbn [mbind option_bind].
      rewrite decide_True by lia.
      eexists. split; [reflexivity|]. cbn [upd_ret].
      split; [done|]. by intros (_ & ? & _).
  - unfold vdex_updateChecksums. rewrite Hvalid.
    cbn [mbind option_bind negb].
    eexists. split; [reflexivity|]. cbn [upd_ret].
    split; [done|]. by intros (? & _).
Qed.

(** The exit status of a run with [--new-crc] on one mapped file that
    holds its whole checksum table. *)
Lemma main_newCrc_in_file
    (pRunArgs : runArgs_t) (file : string) (buf : list byte) (cs : list Z)
    (nSums : Z) (n : nat) :
  hdr_numberOfDexFiles buf = Some (Z.of_nat n) →
  (24 + 4 * n <= length buf)%nat →
  Z.of_nat (length cs) = nSums →
  nSums < 2 ^ 31 →
  ∃ code evs,
    main_newCrc pRunArgs [(file, Some buf)] (Some cs) nSums =
      Some (code, evs) ∧
    (code = EXIT_SUCCESS ∨ code = EXIT_FAILURE) ∧
    (code = EXIT_SUCCESS ↔
     1 <= nSums ∧
     vdex_isValidVdex buf = Some true ∧
     nSums = Z.of_nat n ∧
     outWriter_VdexFile pRunArgs file (checksums_rewritten buf n cs) = true).
Proof.
  intros Hn Hbuf Hcs Hint. unfold main_newCrc.
  case_decide as Hlow.
  { eexists _, _. split; [reflexivity|]. split; [by right|].
    split; [done|]. intros (? & _). lia. }
  destruct (vdex_updateChecksums_in_file file buf nSums cs pRunArgs n)
    as (r & -> & Hret); [done..|].
  cbn [mbind option_bind].
  destruct (upd_ret r); cbn [negb].
  - eexists _, _. split; [reflexivity|]. split; [by left|].
    split; [|done]. intros _. split; [lia|]. by apply Hret.
  - eexists _, _. split; [reflexivity|]. split; [by right|].
    split; [done|]. intros (_ & Hall). apply Hret in Hall. done.
Qed.
End ChecksumRewriteGeneral.

Section ChecksumRewriteTheorems.
Context `{!Externals}.

(** X4: on a valid container whose [numberOfDexFiles] is the number of new
    checksums and whose checksum table lies inside the mapping,
    [vdex_updateChecksums] rewrites the table and nothing else: entry [j]
    reads back as the [j]-th new checksum, every byte outside
    [24, 24 + 4 * n) is as before, the whole buffer is handed to the writer,
    and the value returned is the writer's, so that a failed write returns
    false with the table rewritten all the same. *)
Theorem X4_updateChecksums_rewrites_only_the_table
    (buf : list byte) (file : string) (nCsums : Z) (cs : list Z)
    (pRunArgs : runArgs_t) (n : nat) :
  vdex_isValidVdex buf = Some true →
  hdr_numberOfDexFiles buf = Some (Z.of_nat n) →
  u4 nCsums = Z.of_nat n →
  (n <= length cs)%nat →
  (24 + 4 * n <= length buf)%nat →
  ∃ r out,
    vdex_updateChecksums file (Some buf) nCsums cs pRunArgs = Some r ∧
    upd_buf r = Some out ∧
    upd_written r = Some out ∧
    upd_ret r = outWriter_VdexFile pRunArgs file out ∧
    length out = length buf ∧
    (∀ j c, (j < n)%nat → cs !! j = Some c →
       vdex_GetLocationChecksum out (Z.of_nat j) = Some (u4 c)) ∧
    (∀ p : nat, (p < 24 ∨ 24 + 4 * n <= p)%nat → out !! p = buf !! p).
Proof.
  intros Hvalid Hn Hcount Hcs Hbuf.
  pose proof (vdex_updateChecksums_rewrites buf file nCsums cs pRunArgs n
                Hvalid Hn Hcount ltac:(done)) as Hrun.
  cbv zeta in Hrun.
  set (out := checksums_rewritten buf n cs) in *.
  assert (Hloop : updateChecksums_loop buf cs (Z.of_nat 0) n = Some out).
  { rewrite updateChecksums_loop_spec by (simpl; lia).
    unfold out, checksums_rewritten. by rewrite drop_0. }
  apply updateChecksums_loop_content in Hloop as (Hnew & Hold).
  eexists _, out. split; [exact Hrun|]. cbn [upd_buf upd_written upd_ret].
  repeat split.
  - by apply checksums_rewritten_length.
  - intros j c Hj Hc. apply Hnew; [lia|done].
  - intros p Hp. apply Hold. lia.
Qed.

(** X5: rewriting the checksums is idempotent. On the buffer that a run of
    [vdex_updateChecksums] hands to the writer, a second run with the same
    checksums gives the same result, buffer included. *)
Theorem X5_updateChecksums_idempotent
    (buf : list byte) (file : string) (nCsums : Z) (cs : list Z)
    (pRunArgs : runArgs_t) (n : nat) :
  vdex_isValidVdex buf = Some true →
  hdr_numberOfDexFiles buf = Some (Z.of_nat n) →
  u4 nCsums = Z.of_nat n →
  (n <= length cs)%nat →
  (24 + 4 * n <= length buf)%nat →
  ∃ r out,
    vdex_updateChecksums file (Some buf) nCsums cs pRunArgs = Some r ∧
    upd_written r = Some out ∧
    vdex_updateChecksums file (Some out) nCsums cs pRunArgs = Some r.
Proof.
  intros Hvalid Hn Hcount Hcs Hbuf.
  pose proof (vdex_updateChecksums_rewrites buf file nCsums cs pRunArgs n
                Hvalid Hn Hcount ltac:(done)) as Hrun.
  cbv zeta in Hrun.
  set (out := checksums_rewritten buf n cs) in *.
  assert (Hloop : updateChecksums_loop buf cs (Z.of_nat 0) n = Some out).
  { rewrite updateChecksums_loop_spec by (simpl; lia).
    unfold out, checksums_rewritten. by rewrite drop_0. }
  apply updateChecksums_loop_content in Hloop as (_ & Hold).
  assert (Hlen : length out = length buf)
    by (by apply checksums_rewritten_length).
  assert (Hbyte : ∀ i, 0 <= i < 24 → load_byte out i = load_byte buf i).
  { intros i Hi. unfold load_byte. case_decide; [|lia]. apply Hold. lia. }
  assert (Hvalid' : vdex_isValidVdex out = Some true).
  { rewrite <- Hvalid. apply vdex_isValidVdex_ext. intros i Hi.
    apply Hbyte. lia. }
  assert (Hn' : hdr_numberOfDexFiles out = Some (Z.of_nat n)).
  { rewrite <- Hn. apply load_u4_ext. intros i Hi. apply Hbyte.
    unfold off_numberOfDexFiles in Hi. lia. }
  assert (Hsame : checksums_rewritten out n cs = out).
  { unfold checksums_rewritten. fold (checksums_rewritten buf n cs).
    apply list_eq. intros p.
    assert (length (take 24 out) = 24%nat) as Ht
      by (rewrite length_take; lia).
    assert (length (take 24 buf) = 24%nat) as Ht'
      by (rewrite length_take; lia).
    assert (length (concat (le32 <$> take n cs)) = (4 * n)%nat) as Hc
      by (rewrite length_concat_le32, length_take; lia).
    destruct (decide (p < 24)%nat).
    - rewrite lookup_app_l by lia. by apply lookup_take_lt.
    - rewrite lookup_app_r by lia. rewrite Ht.
      destruct (decide (p < 24 + 4 * n)%nat).
      + rewrite lookup_app_l by lia.
        unfold out, checksums_rewritten.
        rewrite lookup_app_r by lia. rewrite Ht'.
        by rewrite lookup_app_l by lia.
      + rewrite lookup_app_r by lia. rewrite Hc, lookup_drop.
        f_equal. lia. }
  eexists _, out. split; [exact Hrun|]. split; [done|].
  rewrite (vdex_updateChecksums_rewrites out file nCsums cs pRunArgs n)
    by (done || lia).
  cbv zeta. by rewrite Hsame.
Qed.

(** X6: on a file that holds its whole checksum table, called with an
    array of [nCsums] checksums, [vdex_updateChecksums] returns, and it
    returns true exactly when the header is valid, [numberOfDexFiles]
    equals [nCsums] and the writer accepts the rewritten buffer. On a file
    that could not be mapped it returns false and writes nothing. *)
Theorem X6_updateChecksums_succeeds_iff
    (file : string) (buf : list byte) (nCsums : Z) (cs : list Z)
    (pRunArgs : runArgs_t) (n : nat) :
  hdr_numberOfDexFiles buf = Some (Z.of_nat n) →
  (24 + 4 * n <= length buf)%nat →
  Z.of_nat (length cs) = nCsums →
  nCsums < 2 ^ 31 →
  (∃ r,
     vdex_updateChecksums file (Some buf) nCsums cs pRunArgs = Some r ∧
     (upd_ret r = true ↔
      vdex_isValidVdex buf = Some true ∧
      nCsums = Z.of_nat n ∧
      outWriter_VdexFile pRunArgs file (checksums_rewritten buf n cs) =
        true)) ∧
  (∃ r0,
     vdex_updateChecksums file None nCsums cs pRunArgs = Some r0 ∧
     upd_ret r0 = false ∧ upd_written r0 = None).
Proof.
  intros Hn Hbuf Hcs Hint. split.
  - by apply vdex_updateChecksums_in_file.
  - eexists. split; [reflexivity|]. done.
Qed.

(** X7: a run with [--new-crc] needs exactly one input file and a sidecar
    file that yields at least one checksum, and fails on a file that cannot
    be mapped; otherwise it ends with [EXIT_FAILURE]. On one mapped file
    that holds its whole checksum table, with [nSums] checksums read, the
    run ends with [EXIT_SUCCESS] exactly when [nSums] is at least 1, the
    header is valid, [numberOfDexFiles] equals [nSums] and the writer
    accepts the rewritten buffer, and with [EXIT_FAILURE] otherwise. *)
Theorem X7_newCrc_exit_status
    (pRunArgs : runArgs_t) (file : string) (buf : list byte) (cs : list Z)
    (nSums : Z) (n : nat) :
  hdr_numberOfDexFiles buf = Some (Z.of_nat n) →
  (24 + 4 * n <= length buf)%nat →
  Z.of_nat (length cs) = nSums →
  nSums < 2 ^ 31 →
  (∃ code evs,
     main_newCrc pRunArgs [(file, Some buf)] (Some cs) nSums =
       Some (code, evs) ∧
     (code = EXIT_SUCCESS ∨ code = EXIT_FAILURE) ∧
     (code = EXIT_SUCCESS ↔
      1 <= nSums ∧
      vdex_isValidVdex buf = Some true ∧
      nSums = Z.of_nat n ∧
      outWriter_VdexFile pRunArgs file (checksums_rewritten buf n cs) =
        true)) ∧
  (∀ files csums k,
     length files ≠ 1%nat ∨ csums = None ∨ k < 1 ∨ files = [(file, None)] →
     ∃ evs, main_newCrc pRunArgs files csums k = Some (EXIT_FAILURE, evs)).
Proof.
  intros Hn Hbuf Hcs Hint. split.
  - by apply main_newCrc_in_file.
  - intros files csums k Hcase. unfold main_newCrc.
    destruct files as [|[f m] [|? ?]]; [by eexists| |by eexists].
    destruct csums as [cs'|]; [|by eexists].
    case_decide; [by eexists|].
    destruct Hcase as [?|[?|[?|Hf]]]; [done|done|lia|].
    injection Hf as -> ->. cbn [vdex_updateChecksums mbind option_bind
      upd_ret negb]. by eexists.
Qed.
End ChecksumRewriteTheorems.

Lemma X4_updateChecksums_rewrites_only_the_table_witness :
  ∃ r out,
    @vdex_updateChecksums externals_ok "base.vdex" (Some two_dex_vdex) 2
      [7; 9; 11] runArgs_default = Some r ∧
    upd_buf r = Some out ∧
    upd_written r = Some out ∧
    upd_ret r = @outWriter_VdexFile externals_ok runArgs_default "base.vdex" out ∧
    length out = length two_dex_vdex ∧
    (∀ j c, (j < 2)%nat → [7; 9; 11] !! j = Some c →
       vdex_GetLocationChecksum out (Z.of_nat j) = Some (u4 c)) ∧
    (∀ p : nat, (p < 24 ∨ 24 + 4 * 2 <= p)%nat → out !! p = two_dex_vdex !! p).
Proof.
  apply (@X4_updateChecksums_rewrites_only_the_table externals_ok
           two_dex_vdex "base.vdex" 2 [7; 9; 11] runArgs_default 2).
  - reflexivity.
  - reflexivity.
  - reflexivity.
  - simpl. lia.
  - vm_compute. lia.
Defined.

Lemma X5_updateChecksums_idempotent_witness :
  ∃ r out,
    @vdex_updateChecksums externals_ok "base.vdex" (Some two_dex_vdex) 2
      [7; 9] runArgs_default = Some r ∧
    upd_written r = Some out ∧
    @vdex_updateChecksums externals_ok "base.vdex" (Some out) 2
      [7; 9] runArgs_default = Some r.
Proof.
  apply (@X5_updateChecksums_idempotent externals_ok
           two_dex_vdex "base.vdex" 2 [7; 9] runArgs_default 2).
  - reflexivity.
  - reflexivity.
  - reflexivity.
  - simpl. lia.
  - vm_compute. lia.
Defined.

Lemma X6_updateChecksums_succeeds_iff_witness :
  (∃ r,
     @vdex_updateChecksums externals_ok "base.vdex" (Some two_dex_vdex) 2
       [7; 9] runArgs_default = Some r ∧
     (upd_ret r = true ↔
      vdex_isValidVdex two_dex_vdex = Some true ∧
      2 = Z.of_nat 2 ∧
      @outWriter_VdexFile externals_ok runArgs_default "base.vdex"
        (checksums_rewritten two_dex_vdex 2 [7; 9]) = true)) ∧
  (∃ r0,
     @vdex_updateChecksums externals_ok "base.vdex" None 2 [7; 9]
       runArgs_default = Some r0 ∧
     upd_ret r0 = false ∧ upd_written r0 = None).
Proof.
  apply (@X6_updateChecksums_succeeds_iff externals_ok "base.vdex"
           two_dex_vdex 2 [7; 9] runArgs_default 2).
  - reflexivity.
  - vm_compute. lia.
  - reflexivity.
  - lia.
Defined.

Lemma X7_newCrc_exit_status_witness :
  (∃ code evs,
     @main_newCrc externals_ok runArgs_default
       [("base.vdex"%string, Some two_dex_vdex)] (Some [7; 9; 11]) 3 =
       Some (code, evs) ∧
     (code = EXIT_SUCCESS ∨ code = EXIT_FAILURE) ∧
     (code = EXIT_SUCCESS ↔
      1 <= 3 ∧
      vdex_isValidVdex two_dex_vdex = Some true ∧
      3 = Z.of_nat 2 ∧
      @outWriter_VdexFile externals_ok runArgs_default "base.vdex"
        (checksums_rewritten two_dex_vdex 2 [7; 9; 11]) = true)) ∧
  (∀ files csums k,
     length files ≠ 1%nat ∨ csums = None ∨ k < 1 ∨
       files = [("base.vdex"%string, None)] →
     ∃ evs,
       @main_newCrc externals_ok runArgs_default files csums k =
         Some (EXIT_FAILURE, evs)).
Proof.
  apply (@X7_newCrc_exit_status externals_ok runArgs_default "base.vdex"
           two_dex_vdex [7; 9; 11] 3 2).
  - reflexivity.
  - vm_compute. lia.
  - reflexivity.
  - lia.
Defined.

(** ** Section pointers and section offsets *)

(** X8: each of the four offset functions returns the value of its pointer
    twin reduced modulo 2^32, and faults exactly when the twin does. *)
Theorem X8_offsets_are_pointers_mod_2_32 (buf : list byte) :
  vdex_DexBeginOffset buf = u4 <$> vdex_DexBegin buf ∧
  vdex_DexEndOffset buf = u4 <$> vdex_DexEnd buf ∧
  vdex_GetVerifierDepsDataOffset buf = u4 <$> vdex_GetVerifierDepsData buf ∧
  vdex_GetQuickeningInfoOffset buf = u4 <$> vdex_GetQuickeningInfo buf.
Proof.
  unfold vdex_GetQuickeningInfoOffset, vdex_GetQuickeningInfo,
    vdex_GetVerifierDepsDataOffset, vdex_GetVerifierDepsData,
    vdex_DexEndOffset, vdex_DexEnd, vdex_DexBeginOffset, vdex_DexBegin.
  destruct (vdex_GetSizeOfChecksumsSection buf) as [c|];
    cbn [mbind option_bind fmap option_fmap option_map]; [|done].
  destruct (hdr_dexSize buf) as [d|];
    cbn [mbind option_bind fmap option_fmap option_map]; [|done].
  destruct (hdr_verifierDepsSize buf) as [v|];
    cbn [mbind option_bind fmap option_fmap option_map];
    rewrite ?u4_add_u4_l; done.
Qed.

(** X9: on every buffer of at least 24 bytes the section pointers are
    defined and ordered: the DEX section begins at or after the end of the
    header, the verifier dependencies begin where the DEX section ends, and
    the quickening info begins at or after them. (The 32-bit offsets need
    not be ordered.) *)
Theorem X9_section_pointers_are_ordered (buf : list byte) :
  (24 <= length buf)%nat →
  ∃ b e q,
    vdex_DexBegin buf = Some b ∧
    vdex_DexEnd buf = Some e ∧
    vdex_GetVerifierDepsData buf = Some e ∧
    vdex_GetQuickeningInfo buf = Some q ∧
    24 <= b ∧ b <= e ∧ e <= q ∧ q < 24 + 3 * 2 ^ 32.
Proof.
  intros Hlen.
  destruct (load_u4_is_Some buf off_numberOfDexFiles) as [n Hn];
    [done | unfold off_numberOfDexFiles; lia |].
  destruct (load_u4_is_Some buf off_dexSize) as [d Hd];
    [done | unfold off_dexSize; lia |].
  destruct (load_u4_is_Some buf off_verifierDepsSize) as [v Hv];
    [done | unfold off_verifierDepsSize; lia |].
  unfold vdex_GetQuickeningInfo, vdex_GetVerifierDepsData, vdex_DexEnd,
    vdex_DexBegin, vdex_GetSizeOfChecksumsSection,
    hdr_numberOfDexFiles, hdr_dexSize, hdr_verifierDepsSize.
  rewrite Hn, Hd, Hv. cbn [mbind option_bind].
  apply load_u4_Some_inv in Hd as (_ & _ & Hd).
  apply load_u4_Some_inv in Hv as (_ & _ & Hv).
  pose proof (u4_range (sizeof_VdexChecksum * n)).
  unfold sizeof_vdexHeader.
  eexists _, _, _. split_and!; try reflexivity; lia.
Qed.

Lemma X9_section_pointers_are_ordered_witness :
  ∃ b e q,
    vdex_DexBegin wrap_vdex = Some b ∧
    vdex_DexEnd wrap_vdex = Some e ∧
    vdex_GetVerifierDepsData wrap_vdex = Some e ∧
    vdex_GetQuickeningInfo wrap_vdex = Some q ∧
    24 <= b ∧ b <= e ∧ e <= q ∧ q < 24 + 3 * 2 ^ 32.
Proof.
  apply (X9_section_pointers_are_ordered wrap_vdex). vm_compute. lia.
Defined.

(** ** The header dump *)

Lemma dump_checksums_is_Some (buf : list byte) (k : nat) :
  ∀ i : nat,
    is_Some (dump_checksums buf (Z.of_nat i) k) ↔
    (k = 0%nat ∨ (24 + 4 * (i + k) <= length buf)%nat).
Proof.
  induction k as [|k IH]; intros i.
  { cbn [dump_checksums]. split; eauto. }
  cbn [dump_checksums]. unfold vdex_GetLocationChecksum.
  rewrite (checksum_offset (Z.of_nat i)) by lia. rewrite Nat2Z.id.
  replace (Z.of_nat i + 1) with (Z.of_nat (S i)) by lia.
  specialize (IH (S i)). split.
  - intros [cs Hcs]. right.
    destruct (load_u4 buf (Z.of_nat (24 + 4 * i))) as [c|] eqn:Hc;
      cbn [mbind option_bind] in Hcs; [|done].
    destruct (dump_checksums buf (Z.of_nat (S i)) k) as [cs'|] eqn:Hrest;
      cbn [mbind option_bind] in Hcs; [|done].
    apply load_u4_Some_inv in Hc.
    destruct (proj1 IH) as [->|?]; [eauto|lia|lia].
  - intros [?|Hlen]; [done|].
    destruct (load_u4_is_Some buf (Z.of_nat (24 + 4 * i))) as [c ->];
      [lia..|]. cbn [mbind option_bind].
    destruct (proj2 IH) as [cs ->].
    { destruct k; [by left|right; lia]. }
    cbn [mbind option_bind]. eauto.
Qed.

Lemma dump_checksums_length (buf : list byte) (k : nat) :
  ∀ (i : Z) (cs : list Z),
    dump_checksums buf i k = Some cs → length cs = k.
Proof.
  induction k as [|k IH]; intros i cs Hcs.
  { by injection Hcs as <-. }
  cbn [dump_checksums] in Hcs.
  destruct (vdex_GetLocationChecksum buf i); cbn [mbind option_bind] in Hcs;
    [|done].
  destruct (dump_checksums buf (i + 1) k) as [cs'|] eqn:Hrest;
    cbn [mbind option_bind] in Hcs; [|done].
  injection Hcs as <-. cbn [length]. f_equal. by eapply IH.
Qed.

(** X10: on a buffer of at least 24 bytes, [vdex_dumpHeaderInfo] stays
    inside the mapping exactly when the header's [numberOfDexFiles] is 0 or
    the whole checksum table lies inside the mapping; it then reports as many
    checksums as the header announces. Otherwise it reads past the end of
    the mapping. *)
Theorem X10_dumpHeaderInfo_bounds (buf : list byte) (n : Z) :
  (24 <= length buf)%nat →
  hdr_numberOfDexFiles buf = Some n →
  (is_Some (vdex_dumpHeaderInfo buf) ↔
   n = 0 ∨ 24 + 4 * n <= Z.of_nat (length buf)) ∧
  (∀ hdr cs, vdex_dumpHeaderInfo buf = Some (hdr, cs) →
     Z.of_nat (length cs) = n).
Proof.
  intros Hlen Hn.
  apply load_u4_Some_inv in Hn as Hr. destruct Hr as (_ & _ & Hr).
  destruct (load_u4_is_Some buf off_dexSize) as [d Hd];
    [done | unfold off_dexSize; lia |].
  destruct (load_u4_is_Some buf off_verifierDepsSize) as [v Hv];
    [done | unfold off_verifierDepsSize; lia |].
  destruct (load_u4_is_Some buf off_quickeningInfoSize) as [q Hq];
    [done | unfold off_quickeningInfoSize; lia |].
  unfold vdex_dumpHeaderInfo, vdex_GetVerifierDepsDataSize,
    vdex_GetQuickeningInfoSize, vdex_GetQuickeningInfoOffset,
    vdex_GetVerifierDepsDataOffset, vdex_DexBeginOffset,
    vdex_GetSizeOfChecksumsSection.
  unfold hdr_dexSize, hdr_verifierDepsSize, hdr_quickeningInfoSize.
  rewrite Hn, Hd, Hv, Hq. cbn [mbind option_bind].
  change 0 with (Z.of_nat 0) at 1 3.
  pose proof (dump_checksums_is_Some buf (Z.to_nat n) 0) as Hiff.
  split.
  - split.
    + intros [r Hr']. destruct (dump_checksums buf (Z.of_nat 0) (Z.to_nat n));
        [|done].
      destruct (proj1 Hiff) as [?|?]; [eauto|lia|lia].
    + intros Hcase. destruct (proj2 Hiff) as [cs ->]; [lia|].
      cbn [mbind option_bind]. eauto.
  - intros hdr cs Hdump.
    destruct (dump_checksums buf (Z.of_nat 0) (Z.to_nat n)) as [cs'|] eqn:Hcs;
      cbn [mbind option_bind] in Hdump; [|done].
    injection Hdump as _ <-.
    apply dump_checksums_length in Hcs. lia.
Qed.

Lemma X10_dumpHeaderInfo_bounds_witness :
  (is_Some (vdex_dumpHeaderInfo huge_table_header) ↔
   1073741824 = 0 ∨ 24 + 4 * 1073741824 <= Z.of_nat (length huge_table_header)) ∧
  (∀ hdr cs, vdex_dumpHeaderInfo huge_table_header = Some (hdr, cs) →
     Z.of_nat (length cs) = 1073741824).
Proof.
  apply (X10_dumpHeaderInfo_bounds huge_table_header 1073741824).
  - vm_compute. lia.
  - reflexivity.
Defined.

(** ** More on the DEX iterator *)

Section NextDexFileDataMore.
Context `{!DexLayout}.

(** X11: [vdex_GetNextDexFileData] returns [NULL] in two cases only: on a
    first call (cursor 0) when the header's [dexSize] is 0, and on a later
    call when the slice at the cursor would end past [vdex_DexEnd]. In both
    the cursor is left as it was. *)
Theorem X11_NULL_cases (buf : list byte) (offset offset' : Z) :
  vdex_GetNextDexFileData buf offset = Some (None, offset') ↔
  offset' = offset ∧
  ((offset = 0 ∧ hdr_dexSize buf = Some 0) ∨
   (offset ≠ 0 ∧
    ∃ fs e, dex_fileSize buf offset = Some fs ∧
            vdex_DexEnd buf = Some e ∧ e < offset + fs)).
Proof.
  split.
  - unfold vdex_GetNextDexFileData. case_decide as Ho.
    + subst offset. unfold vdex_hasDexSection.
      destruct (hdr_dexSize buf) as [d|]; cbn [mbind option_bind]; [|done].
      destruct (Z.eqb_spec d 0) as [->|Hd]; cbn [negb].
      * intros [= <-]. eauto.
      * destruct (vdex_DexBegin buf); cbn [mbind option_bind]; [|done].
        destruct (vdex_GetSizeOfChecksumsSection buf);
          cbn [mbind option_bind]; [|done].
        destruct (dex_fileSize buf _); cbn [mbind option_bind]; done.
    + destruct (dex_fileSize buf offset) as [fs|];
        cbn [mbind option_bind]; [|done].
      destruct (vdex_DexEnd buf) as [e|]; cbn [mbind option_bind]; [|done].
      repeat case_decide; try done. intros [= <-].
      split; [done|]. right. split; [done|]. exists fs, e.
      split_and!; [done..|lia].
  - intros [-> [[-> Hd]|(Ho & fs & e & Hfs & He & Hover)]].
    + unfold vdex_GetNextDexFileData, vdex_hasDexSection.
      rewrite decide_True by done. by rewrite Hd.
    + by apply (vdex_GetNextDexFileData_later_overrun buf offset fs e).
Qed.

(** X12: the slice returned by a later call (cursor not 0) starts at the
    cursor and ends, by its own [fileSize], at or before [vdex_DexEnd]. *)
Theorem X12_later_slices_stay_inside (buf : list byte) (offset p offset' : Z) :
  offset ≠ 0 →
  vdex_GetNextDexFileData buf offset = Some (Some p, offset') →
  ∃ fs e,
    dex_fileSize buf p = Some fs ∧
    vdex_DexEnd buf = Some e ∧
    p = offset ∧ p + fs <= e.
Proof.
  intros Ho. unfold vdex_GetNextDexFileData. rewrite decide_False by done.
  destruct (dex_fileSize buf offset) as [fs|] eqn:Hfs;
    cbn [mbind option_bind]; [|done].
  destruct (vdex_DexEnd buf) as [e|]; cbn [mbind option_bind]; [|done].
  repeat case_decide; intros [= <- <-]; exists fs, e; split_and!;
    (done || lia).
Qed.

(** Walking a chain of DEX files that runs past the end of the DEX section
    stops in front of the first file that does not fit. *)
Lemma dexIter_chain_overrun (buf : list byte) (e s : Z) :
  vdex_DexEnd buf = Some e → e < 2 ^ 32 →
  ∀ (pre : list Z) (start : Z) (k : nat),
    0 < start →
    dex_chain buf start (pre ++ [s]) →
    start + foldr Z.add 0 pre <= e →
    e < start + foldr Z.add 0 pre + s →
    (length pre < k)%nat →
    dexIter buf k start =
      Some (slices_from start pre, start + foldr Z.add 0 pre).
Proof.
  intros He Hlt. induction pre as [|a pre IH];
    intros start k Hpos Hch Hfit Hover Hk.
  - destruct k as [|k]; [simpl in Hk; lia|].
    cbn [app dex_chain foldr] in *. destruct Hch as (Hfs & _ & _).
    cbn [dexIter slices_from].
    rewrite (vdex_GetNextDexFileData_later_overrun buf start s e)
      by (done || lia).
    cbn [mbind option_bind]. do 2 f_equal. lia.
  - destruct k as [|k]; [simpl in Hk; lia|].
    change ((a :: pre) ++ [s]) with (a :: (pre ++ [s])) in Hch.
    destruct Hch as (Hfs & Ha & Hrest).
    assert (0 <= foldr Z.add 0 pre) as Hsum.
    { clear -Hrest. revert Hrest. generalize (start + a).
      induction pre as [|b pre IH]; intros z; simpl; [lia|].
      intros (_ & ? & Hrest). apply IH in Hrest. lia. }
    cbn [foldr] in Hfit, Hover.
    cbn [dexIter slices_from foldr].
    rewrite (vdex_GetNextDexFileData_later_fits buf start a e)
      by (done || lia).
    cbn [mbind option_bind]. rewrite u4_small by lia.
    rewrite (IH (start + a) k) by (done || simpl in Hk; lia).
    cbn [mbind option_bind fst snd]. do 2 f_equal. lia.
Qed.

(** X13: in a container whose header announces more DEX data than its
    [dexSize] holds, the iteration yields the DEX files that fit and stops
    with [NULL] at the first one that would end past [vdex_DexEnd], provided
    the first DEX file fits: with [pre] the sizes of the files that fit and
    [s] the size of the next one, the slices yielded are those of [pre],
    however many steps are allowed beyond them. *)
Theorem X13_truncated_container_stops_early
    (buf : list byte) (n d s : Z) (pre : list Z) (k : nat) :
  hdr_numberOfDexFiles buf = Some n →
  hdr_dexSize buf = Some d →
  24 + 4 * n + d < 2 ^ 32 →
  pre ≠ [] →
  dex_chain buf (24 + 4 * n) (pre ++ [s]) →
  foldr Z.add 0 pre <= d →
  d < foldr Z.add 0 pre + s →
  (length pre < k)%nat →
  dexIter buf k 0 =
    Some (slices_from (24 + 4 * n) pre, 24 + 4 * n + foldr Z.add 0 pre).
Proof.
  intros Hn Hd Hsmall Hne Hch Hfit Hover Hk.
  apply load_u4_Some_inv in Hn as Hn'. destruct Hn' as (_ & _ & Hn').
  apply load_u4_Some_inv in Hd as Hd'. destruct Hd' as (_ & _ & Hd').
  assert (Hend : vdex_DexEnd buf = Some (24 + 4 * n + d)).
  { unfold vdex_DexEnd, vdex_DexBegin, vdex_GetSizeOfChecksumsSection.
    rewrite Hn, Hd. cbn [mbind option_bind].
    unfold sizeof_vdexHeader, sizeof_VdexChecksum.
    by rewrite (u4_small (4 * n)) by lia. }
  destruct pre as [|a pre]; [done|].
  destruct k as [|k]; [simpl in Hk; lia|].
  change ((a :: pre) ++ [s]) with (a :: (pre ++ [s])) in Hch.
  destruct Hch as (Hfs & Ha & Hrest).
  assert (0 <= foldr Z.add 0 pre) as Hsum.
  { clear -Hrest. revert Hrest. generalize (24 + 4 * n + a).
    induction pre as [|b pre IH]; intros z; simpl; [lia|].
    intros (_ & ? & Hrest). apply IH in Hrest. lia. }
  cbn [foldr] in Hfit, Hover.
  cbn [dexIter slices_from foldr].
  rewrite (vdex_GetNextDexFileData_first buf n d a);
    [|done|done|lia|by rewrite (u4_small (4 * n)) by lia].
  cbn [mbind option_bind].
  rewrite (u4_small (4 * n)), (u4_small (24 + 4 * n + a)) by lia.
  rewrite (dexIter_chain_overrun buf (24 + 4 * n + d) s Hend ltac:(lia)
             pre (24 + 4 * n + a) k) by (done || simpl in Hk; lia).
  cbn [mbind option_bind fst snd]. do 2 f_equal. lia.
Qed.

(** X14: a DEX header that declares a size of 0 stalls the iterator: a later
    call on it returns the empty slice at the cursor and leaves the cursor
    where it is, so that every further step yields the same slice again. *)
Theorem X14_zero_size_dex_stalls (buf : list byte) (offset e : Z) (k : nat) :
  0 < offset < 2 ^ 32 →
  dex_fileSize buf offset = Some 0 →
  vdex_DexEnd buf = Some e →
  offset <= e →
  vdex_GetNextDexFileData buf offset = Some (Some offset, offset) ∧
  dexIter buf k offset = Some (replicate k (offset, offset), offset).
Proof.
  intros Ho Hfs He Hfit.
  assert (Hcall : vdex_GetNextDexFileData buf offset =
                  Some (Some offset, offset)).
  { rewrite (vdex_GetNextDexFileData_later_fits buf offset 0 e)
      by (done || lia).
    rewrite Z.add_0_r, u4_small by lia. done. }
  split; [done|].
  induction k as [|k IH]; [done|].
  cbn [dexIter replicate]. rewrite Hcall. cbn [mbind option_bind].
  rewrite IH. done.
Qed.
End NextDexFileDataMore.

Lemma X11_NULL_cases_witness :
  @vdex_GetNextDexFileData dex_035 truncated_vdex 144 = Some (None, 144).
Proof.
  apply (@X11_NULL_cases dex_035 truncated_vdex 144 144).
  split; [reflexivity|]. right. split; [lia|].
  exists 112, 144. split_and!; [reflexivity | reflexivity | lia].
Defined.

Lemma X12_later_slices_stay_inside_witness :
  ∃ fs e,
    @dex_fileSize dex_035 two_dex_vdex 144 = Some fs ∧
    vdex_DexEnd two_dex_vdex = Some e ∧
    144 = 144 ∧ 144 + fs <= e.
Proof.
  apply (@X12_later_slices_stay_inside dex_035 two_dex_vdex 144 144 264).
  - lia.
  - reflexivity.
Defined.

Lemma X13_truncated_container_stops_early_witness :
  @dexIter dex_035 truncated_vdex 2 0 =
    Some (slices_from (24 + 4 * 2) [112],
          24 + 4 * 2 + foldr Z.add 0 [112]).
Proof.
  apply (@X13_truncated_container_stops_early dex_035 truncated_vdex
           2 112 112 [112] 2).
  - reflexivity.
  - reflexivity.
  - lia.
  - discriminate.
  - cbn [app dex_chain]. split_and!; [reflexivity | lia | reflexivity | lia | exact I].
  - simpl. lia.
  - simpl. lia.
  - simpl. lia.
Defined.

Lemma X14_zero_size_dex_stalls_witness :
  @vdex_GetNextDexFileData dex_035 stalled_vdex 144 = Some (Some 144, 144) ∧
  @dexIter dex_035 stalled_vdex 5 144 = Some (replicate 5 (144, 144), 144).
Proof.
  apply (@X14_zero_size_dex_stalls dex_035 stalled_vdex 144 264 5).
  - lia.
  - reflexivity.
  - reflexivity.
  - lia.
Defined.

(** ** Backend selection and the totals of a run *)

(** X15: on a header that passed validation [selectVdexBackend] never
    fails. It returns true and changes nothing but the four pointers: with
    the version field "006" each of them ends up bound to its v6 function,
    with "010" to its v10 function, whatever was bound before, and
    [vdex_process] then runs the backend of that version. *)
Theorem X15_validated_header_selects_its_backend
    (buf : list byte) (st : main_state) :
  vdex_isValidVdex buf = Some true →
  ∃ st',
    selectVdexBackend buf st = Some (true, st') ∧
    processedVdexCnt st' = processedVdexCnt st ∧
    processedDexCnt st' = processedDexCnt st ∧
    disStatus st' = disStatus st ∧
    log st' = log st ∧
    ((take 4 (drop 4 buf) = version_006 ∧
      initDepsInfoPtr (ptrs st') = Some vdex_initDepsInfo_v6 ∧
      destroyDepsInfoPtr (ptrs st') = Some vdex_destroyDepsInfo_v6 ∧
      dumpDepsInfoPtr (ptrs st') = Some vdex_dumpDepsInfo_v6 ∧
      processPtr (ptrs st') = Some vdex_process_v6 ∧
      ∀ (E : Externals) file pRunArgs,
        @vdex_process E file buf pRunArgs (ptrs st') =
          Some (@backend_process E vdex_process_v6 file buf pRunArgs)) ∨
     (take 4 (drop 4 buf) = version_010 ∧
      initDepsInfoPtr (ptrs st') = Some vdex_initDepsInfo_v10 ∧
      destroyDepsInfoPtr (ptrs st') = Some vdex_destroyDepsInfo_v10 ∧
      dumpDepsInfoPtr (ptrs st') = Some vdex_dumpDepsInfo_v10 ∧
      processPtr (ptrs st') = Some vdex_process_v10 ∧
      ∀ (E : Externals) file pRunArgs,
        @vdex_process E file buf pRunArgs (ptrs st') =
          Some (@backend_process E vdex_process_v10 file buf pRunArgs))).
Proof.
  intros [_ Hver]%vdex_isValidVdex_true.
  unfold selectVdexBackend. change (Z.to_nat off_version) with 4%nat.
  destruct Hver as [H6|H10].
  - rewrite (strtol10_version_006 _ H6). cbn [mbind option_bind].
    rewrite decide_True by done. cbn [vdex_backendInit].
    rewrite LOGMSGS_nil. eexists. split; [done|].
    do 4 (split; [done|]). left. by repeat split.
  - rewrite (strtol10_version_010 _ H10). cbn [mbind option_bind].
    rewrite decide_False, decide_True by done. cbn [vdex_backendInit].
    rewrite LOGMSGS_nil. eexists. split; [done|].
    do 4 (split; [done|]). right. by repeat split.
Qed.

Lemma X15_validated_header_selects_its_backend_witness :
  ∃ st',
    selectVdexBackend two_dex_vdex (set_ptrs ptrs_v6 main_state_init) =
      Some (true, st') ∧
    log st' = [] ∧
    processPtr (ptrs st') = Some vdex_process_v10.
Proof.
  destruct (X15_validated_header_selects_its_backend two_dex_vdex
              (set_ptrs ptrs_v6 main_state_init))
    as (st' & Hsel & _ & _ & _ & Hlog & Hver); [reflexivity|].
  exists st'. split; [exact Hsel|]. split; [exact Hlog|].
  destruct Hver as [(Hv & _) | (_ & _ & _ & _ & Hp & _)].
  - vm_compute in Hv. discriminate Hv.
  - exact Hp.
Defined.

Section RunTotalsProperties.
Context `{!DexLayout} `{!Externals}.

(** The rest of the loop body, from the backend selection on, for a file
    that passed validation. *)
Lemma main_file_backend_exact (pRunArgs : runArgs_t) (file : string)
    (buf : list byte) (st : main_state) :
  file_validates (Some buf) = true →
  let ret := backend_process (selected_process buf) file buf pRunArgs in
  ∃ st2,
    processedDexCnt st2 = processedDexCnt st ∧
    main_file_backend pRunArgs file buf st =
      Some (if decide (ret = -1)
            then LOGMSG l_ERROR "Failed to process Dex files - skipping '%s'" st2
            else count_processed ret st2).
Proof.
  intros Hval ret.
  apply andb_true_iff in Hval as [_ Hvalid%bool_decide_eq_true].
  destruct (selectVdexBackend_validated buf st Hvalid)
    as (p & Hsel & Hp & Hproc).
  unfold main_file_backend. rewrite Hsel. cbn [mbind option_bind negb].
  assert (∃ st1, (if dumpDeps pRunArgs
                  then main_dumpDeps buf (set_ptrs p st)
                  else Some (set_ptrs p st)) = Some st1 ∧
            ptrs st1 = p ∧ processedDexCnt st1 = processedDexCnt st)
    as (st1 & -> & Hp1 & Hd1).
  { destruct (dumpDeps pRunArgs).
    - destruct (main_dumpDeps_bound buf (set_ptrs p st) Hp)
        as (st1 & ? & ? & ? & ? & ?). by exists st1.
    - by eexists. }
  cbn [mbind option_bind].
  set (st2 := if enableDisassembler pRunArgs
              then log_setDisStatus true st1 else st1).
  assert (ptrs st2 = p ∧ processedDexCnt st2 = processedDexCnt st)
    as (Hp2 & Hd2).
  { unfold st2. by destruct (enableDisassembler pRunArgs). }
  unfold vdex_process. rewrite Hp2, Hproc. cbn [mbind option_bind].
  exists st2. split; [done|]. fold ret. by case_decide.
Qed.

Lemma main_file_dex_count (pRunArgs : runArgs_t) (file : string)
    (mapped : option (list byte)) (st : main_state) :
  file_safe mapped = true →
  0 <= processedDexCnt st < 2 ^ 64 →
  ∃ st', main_file pRunArgs file mapped st = Some st' ∧
    processedDexCnt st' =
      (processedDexCnt st + file_dex_count pRunArgs file mapped) mod 2 ^ 64.
Proof.
  intros Hsafe Hrange.
  assert (Hsame : processedDexCnt st = (processedDexCnt st + 0) mod 2 ^ 64).
  { rewrite Z.add_0_r, Z.mod_small; lia. }
  unfold main_file, file_dex_count.
  set (st0 := LOGMSG l_DEBUG "Processing '%s'" st).
  destruct mapped as [buf|]; [|by eexists].
  case_decide as Hsz.
  { eexists. split; [reflexivity|]. unfold file_fails, file_validates.
    rewrite bool_decide_eq_false_2 by lia. done. }
  assert (Hlen : (8 <= length buf)%nat).
  { unfold sizeof_vdexHeader in Hsz. lia. }
  destruct (vdex_isValidVdex_is_Some buf Hlen) as [valid Hvalid].
  rewrite Hvalid. cbn [mbind option_bind]. destruct valid; cbn [negb].
  - assert (Hval : file_validates (Some buf) = true).
    { unfold file_validates.
      rewrite !bool_decide_eq_true_2 by (done || lia). done. }
    unfold file_safe in Hsafe. rewrite Hval in Hsafe. cbn [negb orb] in Hsafe.
    apply bool_decide_eq_true in Hsafe as [d ->]. cbn [mbind option_bind].
    destruct (main_file_backend_exact pRunArgs file buf st0 Hval)
      as (st2 & Hd2 & ->).
    eexists. split; [reflexivity|].
    unfold file_fails. rewrite Hval. cbn [negb orb].
    case_decide as Hret.
    + rewrite bool_decide_eq_true_2 by done.
      cbn [LOGMSG processedDexCnt]. rewrite Hd2. done.
    + rewrite bool_decide_eq_false_2 by done.
      cbn [count_processed processedDexCnt]. by rewrite Hd2.
  - eexists. split; [reflexivity|]. unfold file_fails, file_validates.
    rewrite (bool_decide_eq_false_2 (vdex_isValidVdex buf = Some true))
      by (rewrite Hvalid; done).
    rewrite andb_false_r. done.
Qed.

Lemma main_loop_dex_count (pRunArgs : runArgs_t)
    (files : list (string * option (list byte))) :
  ∀ st,
    files_safe files = true →
    0 <= processedDexCnt st < 2 ^ 64 →
    ∃ st', main_loop pRunArgs files st = Some st' ∧
      processedDexCnt st' =
        (processedDexCnt st + dex_total pRunArgs files) mod 2 ^ 64.
Proof.
  induction files as [|[file mapped] files IH]; intros st Hsafe Hcnt.
  { exists st. split; [done|]. cbn [dex_total foldr].
    rewrite Z.add_0_r, Z.mod_small; lia. }
  cbn [files_safe forallb snd] in Hsafe.
  apply andb_true_iff in Hsafe as [Hsafe1 Hsafe].
  destruct (main_file_dex_count pRunArgs file mapped st Hsafe1 Hcnt)
    as (st1 & Hst1 & Hd1).
  cbn [main_loop]. rewrite Hst1. cbn [mbind option_bind].
  destruct (IH st1 Hsafe) as (st' & -> & Hd').
  { rewrite Hd1. apply Z.mod_pos_bound. lia. }
  exists st'. split; [done|]. rewrite Hd', Hd1.
  rewrite Zplus_mod_idemp_l. f_equal.
  unfold dex_total. cbn [foldr fst snd]. lia.
Qed.

(** X16: when the header dumps stay inside the mapped files, the counter
    [processedDexCnt] that [main] reports at the end of a run is the sum,
    modulo 2^64, of the values that [vdex_process] returned for the files
    that did not fail; files that are given up on add nothing. *)
Theorem X16_processedDexCnt_is_the_sum_of_the_backend_counts
    (pRunArgs : runArgs_t) (files : list (string * option (list byte))) :
  files_safe files = true →
  ∃ st,
    main_extract pRunArgs files = Some (EXIT_SUCCESS, st) ∧
    processedDexCnt st = dex_total pRunArgs files mod 2 ^ 64.
Proof.
  intros Hsafe. unfold main_extract.
  set (st0 := LOGMSG l_INFO "Processing %zu file(s) from %s" main_state_init).
  destruct (main_loop_dex_count pRunArgs files st0 Hsafe)
    as (st' & -> & Hd); [done|].
  cbn [mbind option_bind]. eexists. split; [reflexivity|].
  cbn [LOGMSG processedDexCnt]. rewrite Hd. done.
Qed.
End RunTotalsProperties.

Lemma X16_processedDexCnt_is_the_sum_of_the_backend_counts_witness :
  ∃ st,
    @main_extract dex_035 externals_ok runArgs_default three_files =
      Some (EXIT_SUCCESS, st) ∧
    processedDexCnt st =
      @dex_total dex_035 externals_ok runArgs_default three_files mod 2 ^ 64.
Proof.
  apply (@X16_processedDexCnt_is_the_sum_of_the_backend_counts
           dex_035 externals_ok runArgs_default three_files).
  reflexivity.
Defined.

(** ** The option loop of main *)

Section OptionsProperties.
Context `{!Libc}.

Lemma main_option_continues (c : Z) (optarg : string) (o : main_opts) :
  c ∈ continuing_codes →
  ∃ o', main_option c optarg o = inl o' ∧
    fileOverride (opt_runArgs o') =
      fileOverride (opt_runArgs o) || bool_decide (c = opt_f) ∧
    unquicken (opt_runArgs o') =
      unquicken (opt_runArgs o) && negb (bool_decide (c = opt_no_unquicken)) ∧
    enableDisassembler (opt_runArgs o') =
      enableDisassembler (opt_runArgs o) || bool_decide (c = opt_dis) ∧
    dumpDeps (opt_runArgs o') =
      dumpDeps (opt_runArgs o) || bool_decide (c = opt_deps).
Proof.
  intros Hc. unfold continuing_codes in Hc.
  repeat (apply elem_of_cons in Hc as [->|Hc]);
    [..|by apply elem_of_nil in Hc];
    (eexists; split; [reflexivity|]);
    cbn [opt_runArgs with_runArgs fileOverride unquicken enableDisassembler
         dumpDeps];
    repeat split;
    rewrite ?orb_false_r, ?andb_true_r, ?orb_true_r, ?andb_false_r; done.
Qed.

(** X17: [-h] and an option that [getopt_long] does not recognise (result
    ['?']) both end the program with [EXIT_SUCCESS], as soon as they are
    met after options that are recognised; what follows on the command line
    is not looked at. *)
Theorem X17_help_and_unknown_options_exit_with_success
    (before after : list (Z * string)) (c : Z) (optarg : string)
    (o : main_opts) :
  Forall (λ r, r.1 ∈ continuing_codes) before →
  c = opt_unknown ∨ c = opt_h →
  main_options (before ++ (c, optarg) :: after) o = inr EXIT_SUCCESS.
Proof.
  intros Hbefore Hc. revert o.
  induction Hbefore as [|[c' a'] before Hc' _ IH]; intros o.
  - cbn [app main_options].
    rewrite decide_False by (destruct Hc as [-> | ->]; done).
    by destruct Hc as [-> | ->].
  - cbn [app main_options]. cbn [fst] in Hc'.
    rewrite decide_False.
    2:{ intros ->. unfold continuing_codes in Hc'.
        repeat (apply elem_of_cons in Hc' as [?|Hc']; [done|]).
        by apply elem_of_nil in Hc'. }
    destruct (main_option_continues c' a' o Hc') as (o' & -> & _).
    apply IH.
Qed.

(** X18: when the option loop runs to its end, each of the four flags of the
    run arguments depends only on whether its option occurred, not on the
    order or the number of occurrences: [fileOverride],
    [enableDisassembler] and [dumpDeps] are set exactly when they were set
    before or [-f], [--dis], [--deps] occurred, and [unquicken] stays set
    exactly when [--no-unquicken] did not occur. No option clears a flag
    again. *)
Theorem X18_flags_depend_on_occurrence_only
    (results : list (Z * string)) (o o' : main_opts) :
  Forall (λ r, r.1 ≠ -1) results →
  main_options results o = inl o' →
  fileOverride (opt_runArgs o') =
    fileOverride (opt_runArgs o) || bool_decide (opt_f ∈ results.*1) ∧
  unquicken (opt_runArgs o') =
    unquicken (opt_runArgs o) &&
    negb (bool_decide (opt_no_unquicken ∈ results.*1)) ∧
  enableDisassembler (opt_runArgs o') =
    enableDisassembler (opt_runArgs o) || bool_decide (opt_dis ∈ results.*1) ∧
  dumpDeps (opt_runArgs o') =
    dumpDeps (opt_runArgs o) || bool_decide (opt_deps ∈ results.*1).
Proof.
  intros Hno. revert o.
  induction Hno as [|[c a] results Hc _ IH]; intros o Hrun.
  { injection Hrun as <-. cbn [fmap list_fmap].
    rewrite !bool_decide_eq_false_2 by apply not_elem_of_nil.
    by rewrite !orb_false_r, andb_true_r. }
  cbn [main_options] in Hrun. cbn [fst] in Hc.
  rewrite decide_False in Hrun by done.
  destruct (main_option c a o) as [o1|status] eqn:Hopt; [|done].
  assert (c ∈ continuing_codes) as Hcont.
  { unfold main_option in Hopt. unfold continuing_codes.
    repeat case_decide; try done; subst; solve_elem_of_list. }
  destruct (main_option_continues c a o Hcont) as (o1' & Ho1 & Hf & Hu & Hd & Hp).
  assert (o1' = o1) as -> by congruence.
  apply IH in Hrun as (Hf' & Hu' & Hd' & Hp').
  rewrite Hf', Hu', Hd', Hp', Hf, Hu, Hd, Hp. rewrite fmap_cons. cbn [fst].
  assert (Hmem : ∀ x, bool_decide (x ∈ c :: results.*1) =
                      bool_decide (c = x) || bool_decide (x ∈ results.*1)).
  { intros x. apply eq_true_iff_eq.
    rewrite orb_true_iff, !bool_decide_eq_true, elem_of_cons.
    intuition congruence. }
  rewrite !Hmem. rewrite negb_orb.
  split_and!; by rewrite ?orb_assoc, ?andb_assoc.
Qed.
End OptionsProperties.

Lemma X17_help_and_unknown_options_exit_with_success_witness :
  @main_options libc_example
    ([(opt_f, "base.vdex"%string); (opt_v, "4"%string)] ++
     (opt_unknown, "base.vdex"%string) :: [(opt_deps, "base.vdex"%string)])
    main_opts_init = inr EXIT_SUCCESS.
Proof.
  apply (@X17_help_and_unknown_options_exit_with_success libc_example).
  - repeat constructor; cbn [fst]; unfold continuing_codes;
      solve_elem_of_list.
  - by left.
Defined.

Lemma X18_flags_depend_on_occurrence_only_witness :
  let results := [(opt_deps, "base.vdex"%string); (opt_f, "base.vdex"%string);
                  (opt_deps, "base.vdex"%string)] in
  ∃ o',
    @main_options libc_example results main_opts_init = inl o' ∧
    fileOverride (opt_runArgs o') =
      fileOverride (opt_runArgs main_opts_init) ||
      bool_decide (opt_f ∈ results.*1) ∧
    unquicken (opt_runArgs o') =
      unquicken (opt_runArgs main_opts_init) &&
      negb (bool_decide (opt_no_unquicken ∈ results.*1)) ∧
    enableDisassembler (opt_runArgs o') =
      enableDisassembler (opt_runArgs main_opts_init) ||
      bool_decide (opt_dis ∈ results.*1) ∧
    dumpDeps (opt_runArgs o') =
      dumpDeps (opt_runArgs main_opts_init) ||
      bool_decide (opt_deps ∈ results.*1).
Proof.
  intros results. eexists. split; [reflexivity|].
  apply (@X18_flags_depend_on_occurrence_only libc_example results).
  - repeat constructor; cbn [fst]; discriminate.
  - reflexivity.
Defined.

(** ** Rewriting the checksums of a well-formed container *)

Section RewriteThenIterate.
Context `{!DexLayout} `{!Externals}.

(** A chain of DEX files is read from the bytes at and after its start. *)
Lemma dex_chain_ext (b1 b2 : list byte) (lo : Z) (sizes : list Z) :
  (∀ i, lo <= i → load_byte b1 i = load_byte b2 i) →
  ∀ start, lo <= start →
    dex_chain b1 start sizes → dex_chain b2 start sizes.
Proof.
  intros Hsame. induction sizes as [|s sizes IH]; intros start Hlo; [done|].
  cbn [dex_chain]. intros (Hfs & Hs & Hrest). split_and!; [|done|].
  - rewrite <- Hfs. unfold dex_fileSize. apply load_u4_ext.
    intros i Hi. symmetry. apply Hsame. lia.
  - apply IH; [lia|done].
Qed.

(** X19: [vdex_updateChecksums] keeps a well-formed container well-formed.
    Run on a valid, well-formed container with one new checksum for each of
    its DEX files, it hands the writer a buffer that is again valid and
    well-formed with the same DEX files, on which the iterator yields the
    same slices as on the original and on which each table entry reads back
    as its new checksum. *)
Theorem X19_rewritten_container_has_the_same_slices
    (buf : list byte) (sizes : list Z) (file : string) (nCsums : Z)
    (cs : list Z) (pRunArgs : runArgs_t) :
  well_formed buf sizes →
  vdex_isValidVdex buf = Some true →
  u4 nCsums = Z.of_nat (length sizes) →
  (length sizes <= length cs)%nat →
  ∃ r out,
    vdex_updateChecksums file (Some buf) nCsums cs pRunArgs = Some r ∧
    upd_written r = Some out ∧
    vdex_isValidVdex out = Some true ∧
    well_formed out sizes ∧
    dexIter out (length sizes) 0 = dexIter buf (length sizes) 0 ∧
    (∀ j c, (j < length sizes)%nat → cs !! j = Some c →
       vdex_GetLocationChecksum out (Z.of_nat j) = Some (u4 c)).
Proof.
  intros Hwf Hvalid Hcount Hcs.
  pose proof Hwf as (Hn0 & Hn & Hd & Hch & (v & q & Hv & Hq & Hlen) & Hsmall).
  unfold sizeof_vdexHeader, sizeof_VdexChecksum in *.
  pose proof (dex_chain_sum_nonneg _ _ _ Hch) as Hsum.
  apply load_u4_Some_inv in Hv as Hv'. destruct Hv' as (_ & _ & Hv').
  apply load_u4_Some_inv in Hq as Hq'. destruct Hq' as (_ & _ & Hq').
  set (n := length sizes) in *.
  assert (Hroom : (24 + 4 * n <= length buf)%nat) by lia.
  pose proof (vdex_updateChecksums_rewrites buf file nCsums cs pRunArgs n
                Hvalid Hn Hcount ltac:(done)) as Hrun.
  cbv zeta in Hrun.
  set (out := checksums_rewritten buf n cs) in *.
  assert (Hloop : updateChecksums_loop buf cs (Z.of_nat 0) n = Some out).
  { rewrite updateChecksums_loop_spec by (simpl; lia).
    unfold out, checksums_rewritten. by rewrite drop_0. }
  apply updateChecksums_loop_content in Hloop as (Hnew & Hold).
  assert (Hlo : ∀ i, 0 <= i < 24 → load_byte out i = load_byte buf i).
  { intros i Hi. unfold load_byte. case_decide; [|lia]. apply Hold. lia. }
  assert (Hhi : ∀ i, 24 + 4 * Z.of_nat n <= i →
                load_byte out i = load_byte buf i).
  { intros i Hi. unfold load_byte. case_decide; [|lia]. apply Hold. lia. }
  assert (Hhdr : ∀ off, 0 <= off → off + 4 <= 24 →
                 load_u4 out off = load_u4 buf off).
  { intros off Hoff0 Hoff24. apply load_u4_ext. intros i Hi. apply Hlo. lia. }
  assert (Hwf' : well_formed out sizes).
  { unfold well_formed. fold n. cbv zeta.
    unfold sizeof_vdexHeader, sizeof_VdexChecksum.
    split_and!; try done.
    - unfold hdr_numberOfDexFiles. by rewrite Hhdr.
    - unfold hdr_dexSize. by rewrite Hhdr.
    - apply (dex_chain_ext buf out (24 + 4 * Z.of_nat n)); [|lia|done].
      intros i Hi. symmetry. by apply Hhi.
    - exists v, q. unfold hdr_verifierDepsSize, hdr_quickeningInfoSize.
      rewrite !Hhdr by done. split_and!; [done..|].
      unfold out. rewrite checksums_rewritten_length by (done || lia). done.
    - unfold out. rewrite checksums_rewritten_length by (done || lia). done. }
  eexists _, out. split; [exact Hrun|]. cbn [upd_written].
  split_and!; [done| |done| |].
  - rewrite <- Hvalid. apply vdex_isValidVdex_ext. intros i Hi.
    apply Hlo. lia.
  - destruct (well_formed_dexIter buf sizes Hwf) as [_ Hb].
    destruct (well_formed_dexIter out sizes Hwf') as [_ Ho].
    fold n in Hb, Ho. by rewrite Hb, Ho.
  - intros j c Hj Hc. apply Hnew; [lia|done].
Qed.
End RewriteThenIterate.

Lemma X19_rewritten_container_has_the_same_slices_witness :
  ∃ r out,
    @vdex_updateChecksums externals_ok "base.vdex" (Some two_dex_vdex) 2
      [7; 9] runArgs_default = Some r ∧
    upd_written r = Some out ∧
    vdex_isValidVdex out = Some true ∧
    @well_formed dex_035 out [112; 120] ∧
    @dexIter dex_035 out (length [112; 120]) 0 =
      @dexIter dex_035 two_dex_vdex (length [112; 120]) 0 ∧
    (∀ j c, (j < length [112; 120])%nat → [7; 9] !! j = Some c →
       vdex_GetLocationChecksum out (Z.of_nat j) = Some (u4 c)).
Proof.
  apply (@X19_rewritten_container_has_the_same_slices dex_035 externals_ok
           two_dex_vdex [112; 120] "base.vdex" 2 [7; 9] runArgs_default).
  - exact two_dex_vdex_well_formed.
  - reflexivity.
  - reflexivity.
  - simpl. lia.
Defined.
